(** * The constrained monotonic sequence generator

    A shallow embedding of [generate_sequence] from
    [frontend/generate_sequence.py], and the properties its specification
    states about it.

    The function is written once, over an interface [Float] holding the
    arithmetic Python performs on its numbers, and every general theorem
    about it is proved for every implementation of that interface: it
    holds of the program whatever the rounding of its binary64 numbers.
    Where order matters the comparison is an argument as well, assumed
    transitive and nothing more.  The binary64 instance runs the function
    on concrete inputs; there the one operation the language leaves to
    the platform, [x ** 2], is an argument too.

    [generate_sequence] converts every integer to a number.
    [generate_sequence_checked] is the same function with Python's
    conversion, which raises [OverflowError] on an integer too large for
    a float; the two agree wherever the second returns. *)

From Stdlib Require Import ZArith Reals Lra Lia Psatz.
From Stdlib Require Import Floats.
From stdpp Require Import base list strings gmap.

Local Open Scope Z_scope.
#[local] Set Warnings "-inexact-float".

(** ** Exceptions and the error monad *)

(** The two [ValueError]s are told apart by their message. *)
Inductive message : Type :=
  | length_at_least_3
      (* "Sequence length must be at least 3" *)
  | index_out_of_bounds (ith n : Z).
      (* f"Index {ith} is out of bounds for sequence of length {n}" *)

Inductive exn : Type :=
  | ValueError (m : message)
  | ZeroDivisionError
  | IndexError
  | OverflowError.
      (* "int too large to convert to float" *)

(** The specification's names for the two validation failures. *)
Definition InvalidLength : exn := ValueError length_at_least_3.
Definition IndexOutOfRange (ith n : Z) : exn :=
  ValueError (index_out_of_bounds ith n).

Inductive outcome (A : Type) : Type :=
  | Ok (a : A)
  | Raise (e : exn).
Arguments Ok {A} a.
Arguments Raise {A} e.

#[global] Instance outcome_ret : MRet outcome := fun _ a => Ok a.
#[global] Instance outcome_bind : MBind outcome := fun _ _ k m =>
  match m with
  | Ok a => k a
  | Raise e => Raise e
  end.

(** ** Numbers *)

(** What the function asks of its numbers: [+], [-], [*], [/], [x ** 2]
    and the conversion of a Python [int]. *)
Class Float (F : Type) : Type := {
  add : F -> F -> F;
  sub : F -> F -> F;
  mul : F -> F -> F;
  div : F -> F -> F;
  sqr : F -> F;
  of_int : Z -> F
}.

(** ** Lists indexed the way Python indexes them *)

Section PyList.
Context {A : Type}.

(** A negative index counts from the end. *)
Definition position (l : list A) (i : Z) : Z :=
  if i <? 0 then i + Z.of_nat (length l) else i.

Definition in_range (l : list A) (j : Z) : bool :=
  (0 <=? j) && (j <? Z.of_nat (length l)).

(** [l[i]] *)
Definition getitem (l : list A) (i : Z) : outcome A :=
  let j := position l i in
  if in_range l j then
    match l !! Z.to_nat j with
    | Some x => Ok x
    | None => Raise IndexError
    end
  else Raise IndexError.

(** [l[i] = x] *)
Definition setitem (l : list A) (i : Z) (x : A) : outcome (list A) :=
  let j := position l i in
  if in_range l j then Ok (<[Z.to_nat j := x]> l) else Raise IndexError.

(** [for i in r: l.append(f(i))], starting from [l = []]. *)
Fixpoint collect (f : Z -> outcome A) (r : list Z) : outcome (list A) :=
  match r with
  | [] => Ok []
  | i :: r' =>
      value ← f i;
      rest ← collect f r';
      Ok (value :: rest)
  end.
End PyList.

(** [range(n)] *)
Definition range (n : Z) : list Z := seqZ 0 n.

(** ** The function *)

Inductive result (F : Type) : Type :=
  | Sequence (sequence : list F)
  | Element (value delta : F).
Arguments Sequence {F} sequence.
Arguments Element {F} value delta.

Section Generator.
Context {F : Type} `{Float F}.

(** [x / m] for an [int] divisor [m]. *)
Definition truediv (x : F) (m : Z) : outcome F :=
  if m =? 0 then Raise ZeroDivisionError else Ok (div x (of_int m)).

(** The body of the loop of the natural mode. *)
Definition natural_value (n : Z) (start end_ : F) (i : Z) : outcome F :=
  t ← truediv (of_int i) (n - 1);
  Ok (add start (mul (sub end_ start) (sqr t))).

Definition denominator (n : Z) : Z := (n - 1) * (n - 2).

(** The coefficients [(a, b, c)] of the pinned mode. *)
Definition coefficients (n : Z) (start firstDelta end_ : F)
  : outcome (F * F * F) :=
  let c := start in
  if denominator n =? 0 then
    Ok (of_int 0, firstDelta, c)
  else
    a ← truediv (sub (sub end_ start) (mul firstDelta (of_int (n - 1))))
                (denominator n);
    Ok (a, sub firstDelta a, c).

(** The body of the loop of the pinned mode. *)
Definition pinned_value (a b c : F) (i : Z) : F :=
  add (add (mul a (of_int (i ^ 2))) (mul b (of_int i))) c.

(** The sequence as the loops leave it. *)
Definition fit (n : Z) (start : F) (firstDelta : option F) (end_ : F)
  : outcome (list F) :=
  match firstDelta with
  | None => collect (natural_value n start end_) (range n)
  | Some firstDelta =>
      '(a, b, c) ← coefficients n start firstDelta end_;
      collect (fun i => Ok (pinned_value a b c i)) (range n)
  end.

(** The three assignments after the fit. *)
Definition reassert (n : Z) (start : F) (firstDelta : option F) (end_ : F)
    (sequence : list F) : outcome (list F) :=
  sequence ← setitem sequence 0 start;
  sequence ← setitem sequence (-1) end_;
  match firstDelta with
  | Some firstDelta =>
      if 1 <? n then setitem sequence 1 (add start firstDelta)
      else Ok sequence
  | None => Ok sequence
  end.

(** The element query. *)
Definition query (n : Z) (sequence : list F) (ith : Z) : outcome (result F) :=
  if (ith <? 0) || (ith >=? n) then Raise (IndexOutOfRange ith n)
  else
    value ← getitem sequence ith;
    if ith =? 0 then Ok (Element value (of_int 0))
    else
      current ← getitem sequence ith;
      previous ← getitem sequence (ith - 1);
      Ok (Element value (sub current previous)).

Definition generate_sequence (n : Z) (start : F) (firstDelta : option F)
    (end_ : F) (ith : option Z) : outcome (result F) :=
  if n <? 3 then Raise InvalidLength
  else
    sequence ← fit n start firstDelta end_;
    sequence ← reassert n start firstDelta end_ sequence;
    match ith with
    | Some ith => query n sequence ith
    | None => Ok (Sequence sequence)
    end.

(** *** The same computation, entry by entry *)

(** The value the loops compute at index [i], when no division fails. *)
Definition curve n start firstDelta end_ (i : Z) : F :=
  match firstDelta with
  | None =>
      add start (mul (sub end_ start) (sqr (div (of_int i) (of_int (n - 1)))))
  | Some d =>
      let a := div (sub (sub end_ start) (mul d (of_int (n - 1))))
                   (of_int (denominator n)) in
      pinned_value a (sub d a) start i
  end.

(** The value the returned sequence holds at index [i]. *)
Definition element n start firstDelta end_ (i : Z) : F :=
  match firstDelta with
  | Some d =>
      if i =? 1 then add start d
      else if i =? n - 1 then end_
      else if i =? 0 then start
      else curve n start firstDelta end_ i
  | None =>
      if i =? n - 1 then end_
      else if i =? 0 then start
      else curve n start firstDelta end_ i
  end.

(** The list the three assignments leave. *)
Definition reasserted n start firstDelta end_ (l : list F) : list F :=
  let l1 := <[Z.to_nat (n - 1) := end_]> (<[0%nat := start]> l) in
  match firstDelta with
  | Some d => <[1%nat := add start d]> l1
  | None => l1
  end.
End Generator.

(** The call failed with the index message, whatever the numbers in it. *)
Definition is_index_out_of_range {A} (o : outcome A) : Prop :=
  exists ith n, o = Raise (IndexOutOfRange ith n).

(** ** Binary64 numbers *)

(** [float(z)]: the binary64 number nearest to the integer [z], ties to
    even.  From [2^1024 - 2^970] on that is an infinity, where Python
    raises [OverflowError] instead ([to_float] below). *)
Definition float_of_int (z : Z) : float :=
  SF2Prim (binary_normalize prec emax z 0 false).

(** Binary64 arithmetic.  [+], [-], [*] and [/] are the operations of
    IEEE 754.  [x ** 2] is the [pow(x, 2.0)] of the platform's C library,
    which IEEE 754 leaves open: it is the argument [pow2].  [i / (n - 1)]
    on two [int]s is their correctly rounded quotient; below [2^53] both
    convert exactly, and it is the quotient of the two conversions, the
    way [natural_value] writes it. *)
Definition binary64 (pow2 : float -> float) : Float float := {|
  add := PrimFloat.add;
  sub := PrimFloat.sub;
  mul := PrimFloat.mul;
  div := PrimFloat.div;
  sqr := pow2;
  of_int := float_of_int
|}.

(** The instance whose [x ** 2] is the correctly rounded square. *)
#[global] Instance binary64_float : Float float :=
  binary64 (fun x => PrimFloat.mul x x).

(** [x < y] and [x == y] on binary64 numbers. *)
Definition float_lt (x y : float) : Prop := PrimFloat.ltb x y = true.
Definition float_eq (x y : float) : Prop := PrimFloat.eqb x y = true.

(** The integers that [float(z)] converts; on the others it raises. *)
Definition fits_binary64 (z : Z) : bool := Z.abs z <? 2 ^ 1024 - 2 ^ 970.

(** ** The three properties of the docstring *)

(** [sequence[i] > sequence[i-1]] for all [i] in [[1, n-1]]. *)
Definition strictly_increasing {A} (lt : A -> A -> Prop) (sequence : list A)
  : Prop :=
  forall i x y,
    1 <= i < Z.of_nat (length sequence) ->
    getitem sequence i = Ok x -> getitem sequence (i - 1) = Ok y ->
    lt y x.


(** [sequence[i] - sequence[i-1] > sequence[i-1] - sequence[i-2]] for all
    [i] in [[2, n-1]]. *)
Definition increasing_absolute_steps {F} `{Float F} (lt : F -> F -> Prop)
    (sequence : list F) : Prop :=
  forall i x y z,
    2 <= i < Z.of_nat (length sequence) ->
    getitem sequence i = Ok x -> getitem sequence (i - 1) = Ok y ->
    getitem sequence (i - 2) = Ok z ->
    lt (sub y z) (sub x y).

(** The relative step at [i] is below the relative step at [i-1], for all
    [i] in [[2, n-1]] where neither divisor is zero; on binary64
    numbers. *)
Definition decreasing_relative_steps (sequence : list float) : Prop :=
  forall i x y z,
    2 <= i < Z.of_nat (length sequence) ->
    getitem sequence i = Ok x -> getitem sequence (i - 1) = Ok y ->
    getitem sequence (i - 2) = Ok z ->
    ~ float_eq y 0 -> ~ float_eq z 0 ->
    float_lt (PrimFloat.div (PrimFloat.sub x y) y)
             (PrimFloat.div (PrimFloat.sub y z) z).

(** ** The function with the conversions that can fail *)

(** Above, [of_int] converts every integer.  Python's conversion of an
    [int] operand of [*] and [/] raises [OverflowError] when the integer
    is too large for a float; [fits] tells which integers convert.  The
    natural mode converts nothing that large: [i / (n - 1)] divides two
    [int]s, and with [0 <= i < n] the quotient is at most [1]. *)
Section Checked.
Context {F : Type} `{Float F}.
Variable fits : Z -> bool.

(** The conversion of the [int] operand of a float operation. *)
Definition to_float (z : Z) : outcome F :=
  if fits z then Ok (of_int z) else Raise OverflowError.

(** [x / m] for an [int] divisor [m]: [m] is converted first. *)
Definition truediv_checked (x : F) (m : Z) : outcome F :=
  divisor ← to_float m;
  if m =? 0 then Raise ZeroDivisionError else Ok (div x divisor).

Definition coefficients_checked (n : Z) (start firstDelta end_ : F)
  : outcome (F * F * F) :=
  let c := start in
  if denominator n =? 0 then
    Ok (of_int 0, firstDelta, c)
  else
    width ← to_float (n - 1);
    a ← truediv_checked (sub (sub end_ start) (mul firstDelta width))
                        (denominator n);
    Ok (a, sub firstDelta a, c).

Definition pinned_value_checked (a b c : F) (i : Z) : outcome F :=
  square ← to_float (i ^ 2);
  index ← to_float i;
  Ok (add (add (mul a square) (mul b index)) c).

Definition fit_checked (n : Z) (start : F) (firstDelta : option F) (end_ : F)
  : outcome (list F) :=
  match firstDelta with
  | None => collect (natural_value n start end_) (range n)
  | Some firstDelta =>
      '(a, b, c) ← coefficients_checked n start firstDelta end_;
      collect (pinned_value_checked a b c) (range n)
  end.

Definition generate_sequence_checked (n : Z) (start : F)
    (firstDelta : option F) (end_ : F) (ith : option Z)
  : outcome (result F) :=
  if n <? 3 then Raise InvalidLength
  else
    sequence ← fit_checked n start firstDelta end_;
    sequence ← reassert n start firstDelta end_ sequence;
    match ith with
    | Some ith => query n sequence ith
    | None => Ok (Sequence sequence)
    end.

(** Every integer the pinned mode converts for length [n] does convert:
    [n - 1], the denominator, and [i ** 2] and [i] for each index. *)
Definition conversions_fit (n : Z) : bool :=
  fits (n - 1) && fits (denominator n)
  && forallb (fun i => fits (i ^ 2) && fits i) (range n).

(** Some conversion of the call fails. *)
Definition overflows (n : Z) (firstDelta : option F) : bool :=
  match firstDelta with
  | None => false
  | Some _ => negb (conversions_fit n)
  end.
End Checked.

(** * The protocol adapter, the price fetcher and the scripts

    The parts of [mcp-server/], [backend/services/] and [scripts/] that
    compute: the conversion of a failed response into an error, the
    parameter grid of the batch optimisation, the allocation check of the
    portfolio backtest, the two interpretations of the analysis tools,
    the synthetic daily bar, the colorizer and the names of the files and
    folders the scripts write.  Numbers that the code adds or divides are
    binary64 numbers; numbers that it only compares are real numbers.
    The network, the clock, the data provider and Unicode's lower-casing
    are inputs. *)

(** ** [errors.py] *)

Module Errors.

(** A decoded JSON document, as [response.json()] returns it. *)
#[local] Set Warnings "-register-all".
Inductive json : Type :=
  | JNull
  | JBool (b : bool)
  | JInt (z : Z)
  | JFloat (f : float)
  | JStr (s : string)
  | JList (l : list json)
  | JDict (d : gmap string json).

(** Python's truth value: [None], [False], zero, and the empty string,
    list and dict are false. *)
Definition truthy (v : json) : bool :=
  match v with
  | JNull => false
  | JBool b => b
  | JInt z => negb (z =? 0)
  | JFloat f => negb (PrimFloat.eqb f 0%float)
  | JStr s => negb (String.eqb s "")
  | JList l => match l with [] => false | _ :: _ => true end
  | JDict d => negb (Nat.eqb (size d) 0)
  end.

(** [x or y] *)
Definition or_else (x y : json) : json := if truthy x then x else y.

(** Whether a decoded document is a JSON object. *)
Definition is_dict (v : json) : bool :=
  match v with JDict _ => true | _ => false end.

(** [v.get(key, default)]: only a dict has [get]; on anything else the
    attribute lookup raises, which is [None] here. *)
Definition get (v : json) (key : string) (default : json) : option json :=
  match v with
  | JDict d => Some (match d !! key with Some x => x | None => default end)
  | _ => None
  end.

(** The attributes [BackendAPIError.__init__] stores. *)
Record BackendAPIError : Type := {
  status_code : Z;
  message : json;
  details : json
}.

(** [BackendAPIError(status_code, message, details)] *)
Definition new_BackendAPIError (status_code : Z) (message details : json)
  : BackendAPIError :=
  {| status_code := status_code;
     message := message;
     details := or_else details (JDict ∅) |}.

Definition to_dict (self : BackendAPIError) : gmap string json :=
  <["error" := message self]>
    (<["status_code" := JInt (status_code self)]>
       (<["details" := details self]> ∅)).

(** What the function reads of a response: the status, the decoded body
    ([None] when [response.json()] raises) and the raw text. *)
Record Response : Type := {
  response_status_code : Z;
  response_json : option json;
  response_text : string
}.

(** The body of the [try]: [None] when anything in it raises. *)
Definition read_error (response : Response) : option (json * json) :=
  error_data ← response_json response;
  message ← get error_data "error" (JStr "Unknown error");
  details ← get error_data "details" (JDict ∅);
  Some (message, details).

(** [handle_backend_error(response)]: [inr tt] when it returns, [inl e]
    when it raises [e]. *)
Definition handle_backend_error (response : Response)
  : BackendAPIError + unit :=
  if response_status_code response >=? 400 then
    let '(message, details) :=
      match read_error response with
      | Some (message, details) => (message, details)
      | None =>
          (JStr (if String.eqb (response_text response) ""
                 then "Request failed" else response_text response),
           JDict ∅)
      end in
    inl (new_BackendAPIError (response_status_code response) message details)
  else inr tt.

(** Two failed responses: one whose body is not JSON, one whose body is
    an object with an ["error"] entry. *)
Definition bad_gateway : Response :=
  {| response_status_code := 502;
     response_json := None;
     response_text := "Bad Gateway" |}.

Definition not_found_body : gmap string json :=
  <["error" := JStr "Stock not found"]> ∅.

Definition not_found : Response :=
  {| response_status_code := 404;
     response_json := Some (JDict not_found_body);
     response_text := "" |}.
End Errors.

(** ** [tools/backtest.py] *)

Module Backtest.

Section Grid.
Context {F : Type}.

Record ParameterGrid : Type := {
  grid_spacing : list F;
  profit_target : list F;
  enable_momentum_sell : option (list bool)
}.

(** One entry of [combinations]. *)
Record Combination : Type := {
  gridSpacing : F;
  profitTarget : F;
  enableMomentumSell : bool
}.

(** [grid.enable_momentum_sell or [False]] *)
Definition momentum_values (grid : ParameterGrid) : list bool :=
  match enable_momentum_sell grid with
  | Some (m :: l) => m :: l
  | Some [] | None => [false]
  end.

(** The three nested loops of [run_batch_optimization], each [append]
    adding at the end of the list built so far. *)
Definition parameter_combinations (grid : ParameterGrid) : list Combination :=
  foldl (fun combinations spacing =>
    foldl (fun combinations target =>
      foldl (fun combinations momentum =>
        combinations ++ [ {| gridSpacing := spacing;
                             profitTarget := target;
                             enableMomentumSell := momentum |} ])
        combinations (momentum_values grid))
      combinations (profit_target grid))
    [] (grid_spacing grid).
End Grid.
Arguments ParameterGrid F : clear implicits.
Arguments Combination F : clear implicits.

Record StockAllocation : Type := {
  symbol : string;
  allocation_pct : float
}.

(** [sum(s.allocation_pct for s in params.stocks)]: binary64 additions
    from the left, starting at [0]. *)
Definition total_allocation (stocks : list StockAllocation) : float :=
  foldl PrimFloat.add 0%float (allocation_pct <$> stocks).

(** [99.9 <= total_allocation <= 100.1] *)
Definition within_tolerance (total : float) : bool :=
  PrimFloat.leb 99.9 total && PrimFloat.leb total 100.1.

(** The ["stocks"] entry of the payload. *)
Definition stocks_payload (stocks : list StockAllocation)
  : list (string * float) :=
  (fun s => (symbol s, PrimFloat.div (allocation_pct s) 100)) <$> stocks.

(** The start of [run_portfolio_backtest], up to the request: either the
    [ValidationError], carrying the total its message shows, or the
    ["stocks"] entry of the payload. *)
Definition portfolio_request (stocks : list StockAllocation)
  : float + list (string * float) :=
  let total := total_allocation stocks in
  if negb (within_tolerance total) then inl total
  else inr (stocks_payload stocks).

(** The examples the two parameter schemas carry. *)
Definition example_grid : ParameterGrid float :=
  {| grid_spacing := [0.05; 0.10; 0.15]%float;
     profit_target := [0.03; 0.05; 0.07]%float;
     enable_momentum_sell := Some [false; true] |}.

End Backtest.

(** ** [tools/analysis.py] *)

Module Analysis.

Inductive volatility : Type :=
  | Low      (* "Low volatility (< 1)" *)
  | Market   (* the string that starts "Market volatility" *)
  | High.    (* "High volatility (> 1)" *)

(** The ["interpretation"] of [calculate_beta]. *)
Definition beta_interpretation (beta : R) : volatility :=
  if Rlt_dec beta 1 then Low
  else if Rle_dec 0.95 beta then
         (if Rle_dec beta 1.05 then Market else High)
       else High.

Inductive candidate : Type :=
  | Poor        (* "Poor candidate" *)
  | Fair        (* "Fair candidate" *)
  | Good        (* "Good candidate" *)
  | Excellent.  (* "Excellent candidate" *)

(** The [interpretation] of [get_dca_suitability_score]. *)
Definition score_interpretation (score : R) : candidate :=
  if Rlt_dec score 30 then Poor
  else if Rlt_dec score 50 then Fair
  else if Rlt_dec score 70 then Good
  else Excellent.

(** The order in which the four labels are listed. *)
Definition candidate_rank (c : candidate) : nat :=
  match c with Poor => 0 | Fair => 1 | Good => 2 | Excellent => 3 end.
End Analysis.

(** ** [services/fetch_current_price.py] *)

Module FetchCurrentPrice.

(** One row of the intraday frame. *)
Record Row : Type := {
  Open : R;
  High : R;
  Low : R;
  Close : R;
  Volume : Z
}.

(** A minute bar whose open and close lie between its low and high. *)
Definition well_formed (row : Row) : Prop :=
  (Low row <= Open row <= High row /\ Low row <= Close row <= High row)%R.

(** The dictionary the function returns. *)
Record PriceData : Type := {
  date : string;
  open : R;
  high : R;
  low : R;
  close : R;
  volume : Z;
  adjusted_close : R;
  is_current_intraday : bool
}.

(** The [Volume] column holds 64-bit integers, and its sum wraps. *)
Definition int64 (z : Z) : Z := (z + 2 ^ 63) mod 2 ^ 64 - 2 ^ 63.

(** [fetch_current_price]: [history] is what [ticker.history] gives
    ([None] when it raises), [today] the date the clock gives.  [None]
    is Python's [None]. *)
Definition fetch_current_price (history : option (list Row)) (today : string)
  : option PriceData :=
  match history with
  | None => None
  | Some [] => None
  | Some (first :: rest) =>
      let latest_row := List.last rest first in
      let current_price := Close latest_row in
      Some {| date := today;
              open := Open first;
              high := foldl Rmax (High first) (High <$> rest);
              low := foldl Rmin (Low first) (Low <$> rest);
              close := current_price;
              volume := int64 (foldl Z.add (Volume first) (Volume <$> rest));
              adjusted_close := current_price;
              is_current_intraday := true |}
  end.

(** Two minutes of trading. *)
Definition two_minutes : list Row :=
  [ {| Open := 10; High := 12; Low := 9; Close := 11; Volume := 100 |};
    {| Open := 11; High := 13; Low := 10; Close := 12; Volume := 50 |} ].
End FetchCurrentPrice.

(** ** [scripts/colorize_session.py] *)

Module Colorize.
Local Open Scope N_scope.

(** A Python [str]: its code points. *)
Definition str : Type := list N.

(** An ASCII literal. *)
Definition lit (s : string) : str :=
  Ascii.N_of_ascii <$> String.list_ascii_of_string s.

(** [s.replace(old, new)] for a one-character [old]. *)
Definition replace_char (old : N) (new : str) (s : str) : str :=
  s ≫= (fun c => if N.eqb c old then new else [c]).

(** [html.escape(s)], with its default [quote=True]: five replacements,
    the ampersand first. *)
Definition escape (s : str) : str :=
  let s := replace_char 38 (lit "&amp;") s in
  let s := replace_char 60 (lit "&lt;") s in
  let s := replace_char 62 (lit "&gt;") s in
  let s := replace_char 34 (lit "&quot;") s in
  let s := replace_char 39 (lit "&#x27;") s in
  s.

(** [c.isspace()], the characters [strip()] removes. *)
Definition isspace (c : N) : bool :=
  ((9 <=? c) && (c <=? 13)) || ((28 <=? c) && (c <=? 32))
  || (c =? 133) || (c =? 160) || (c =? 5760)
  || ((8192 <=? c) && (c <=? 8202))
  || (c =? 8232) || (c =? 8233) || (c =? 8239) || (c =? 8287)
  || (c =? 12288).

Fixpoint lstrip (s : str) : str :=
  match s with
  | c :: s' => if isspace c then lstrip s' else s
  | [] => []
  end.

Definition rstrip (s : str) : str := reverse (lstrip (reverse s)).

(** [s.strip()] *)
Definition strip (s : str) : str := rstrip (lstrip s).

(** [s.startswith(prefix)] *)
Fixpoint startswith (s prefix : str) : bool :=
  match prefix, s with
  | [], _ => true
  | p :: prefix', c :: s' => N.eqb c p && startswith s' prefix'
  | _ :: _, [] => false
  end.

(** [s.startswith((p1, p2, ...))] *)
Definition startswith_any (s : str) (prefixes : list str) : bool :=
  existsb (startswith s) prefixes.

(** [needle in s] *)
Fixpoint contains (needle s : str) : bool :=
  startswith s needle
  || match s with
     | [] => false
     | _ :: s' => contains needle s'
     end.

(** [any(word in s for word in words)] *)
Definition contains_any (words : list str) (s : str) : bool :=
  existsb (fun word => contains word s) words.

(** [s.split('\n')] *)
Fixpoint split_lines (s : str) : list str :=
  match s with
  | [] => [[]]
  | c :: s' =>
      if N.eqb c 10 then [] :: split_lines s'
      else match split_lines s' with
           | line :: lines => (c :: line) :: lines
           | [] => [[c]]
           end
  end.

(** ['\n'.join(lines)] *)
Fixpoint join_lines (lines : list str) : str :=
  match lines with
  | [] => []
  | [line] => line
  | line :: lines' => line ++ 10%N :: join_lines lines'
  end.

Inductive css_class : Type :=
  | user_message | assistant_message | file_path | command | success
  | error | warning | code_addition | code_removal | header | tool_use.

Definition class_name (c : css_class) : str :=
  match c with
  | user_message => lit "user-message"
  | assistant_message => lit "assistant-message"
  | file_path => lit "file-path"
  | command => lit "command"
  | success => lit "success"
  | error => lit "error"
  | warning => lit "warning"
  | code_addition => lit "code-addition"
  | code_removal => lit "code-removal"
  | header => lit "header"
  | tool_use => lit "tool-use"
  end.

(** [f'<span class="{name}">{line}</span>'] *)
Definition span (c : css_class) (line : str) : str :=
  lit "<span class=" ++ [34%N] ++ class_name c ++ [34%N] ++ lit ">"
  ++ line ++ lit "</span>".

Section Lower.
(** [s.lower()], which the function applies to whole lines: Unicode's
    lower-casing, left open here. *)
Variable lower : str -> str.

(** The [if]/[elif] chain, on the escaped line: the class of the first
    test that holds. *)
Definition classify (line : str) : option css_class :=
  if startswith_any (strip line) [lit "Human:"; lit "User:"; lit ">"]
  then Some user_message
  else if startswith_any (strip line) [lit "Assistant:"; lit "Claude:"]
  then Some assistant_message
  else if contains (lit "/") line
          && (contains (lit ".js") line || contains (lit ".py") line
              || contains (lit ".json") line || contains (lit ".md") line)
  then Some file_path
  else if startswith_any (strip line)
            [lit "$"; lit "npm"; lit "git"; lit "cd"; lit "ls"; lit "curl"]
  then Some command
  else if contains_any
            [[9989%N]; lit "success"; lit "completed"; lit "done"]
            (lower line)
  then Some success
  else if contains_any
            [[10060%N]; lit "error"; lit "failed"; lit "failure"]
            (lower line)
  then Some error
  else if contains_any
            [[9888%N; 65039%N]; lit "warning"; lit "warn"] (lower line)
  then Some warning
  else if startswith (strip line) (lit "+")
          && negb (startswith (strip line) (lit "++"))
  then Some code_addition
  else if startswith (strip line) (lit "-")
          && negb (startswith (strip line) (lit "--"))
  then Some code_removal
  else if startswith (strip line) (lit "#")
  then Some header
  else if contains (lit "tool") (lower line)
          || contains (lit "invoke") (lower line)
  then Some tool_use
  else None.

(** The body of the loop: what is appended for one input line. *)
Definition colorize_line (line : str) : str :=
  let line := escape line in
  match classify line with
  | Some c => span c line
  | None => line
  end.

(** What stands between the header and the footer. *)
Definition colorize_body (text : str) : str :=
  join_lines (colorize_line <$> split_lines text).
End Lower.

Definition html_header : str :=
  lit "<!DOCTYPE html>
<html>
<head>
    <meta charset=" ++ [34%N] ++
  lit "UTF-8" ++ [34%N] ++
  lit ">
    <title>Claude Code Session</title>
    <style>
        body {
            font-family: 'Monaco', 'Menlo', 'Consolas', monospace;
            background-color: #1e1e1e;
            color: #d4d4d4;
            padding: 20px;
            line-height: 1.6;
        }
        .user-message {
            color: #4ec9b0;
            font-weight: bold;
            margin-top: 20px;
        }
        .assistant-message {
            color: #9cdcfe;
            margin-top: 15px;
        }
        .code-block {
            background-color: #2d2d2d;
            border-left: 3px solid #007acc;
            padding: 10px;
            margin: 10px 0;
            overflow-x: auto;
        }
        .code-addition {
            background-color: #1a3a1a;
            color: #4ec9b0;
        }
        .code-removal {
            background-color: #3a1a1a;
            color: #f48771;
            text-decoration: line-through;
        }
        .file-path {
            color: #ce9178;
            font-style: italic;
        }
        .command {
            color: #dcdcaa;
            background-color: #2d2d2d;
            padding: 2px 5px;
            border-radius: 3px;
        }
        .success {
            color: #4ec9b0;
        }
        .error {
            color: #f48771;
        }
        .warning {
            color: #dcdcaa;
        }
        .emoji {
            font-size: 1.2em;
        }
        .tool-use {
            background-color: #264f78;
            border-left: 3px solid #007acc;
            padding: 8px;
            margin: 8px 0;
        }
        .header {
            color: #569cd6;
            font-weight: bold;
            font-size: 1.1em;
        }
        pre {
            white-space: pre-wrap;
            word-wrap: break-word;
        }
    </style>
</head>
<body>
<h1 style=" ++ [34%N] ++
  lit "color: #569cd6;" ++ [34%N] ++
  lit ">Claude Code Session</h1>
<pre>".

Definition html_footer : str :=
  lit "</pre>
</body>
</html>".

(** [colorize_session(text)] *)
Definition colorize_session (lower : str -> str) (text : str) : str :=
  html_header ++ colorize_body lower text ++ html_footer.

(** What stands before the last [.] of [s], if there is one. *)
Fixpoint before_last_dot (s : str) : option str :=
  match s with
  | [] => None
  | c :: s' =>
      match before_last_dot s' with
      | Some head => Some (c :: head)
      | None => if N.eqb c 46 then Some [] else None
      end
  end.

(** [s.rsplit('.', 1)[0]] *)
Definition rsplit_dot_head (s : str) : str :=
  match before_last_dot s with
  | Some head => head
  | None => s
  end.

(** The output file [main] writes: the second argument when there is
    one, and otherwise the input name with its extension replaced. *)
Definition output_file (input_file : str) (second_argument : option str)
  : str :=
  match second_argument with
  | Some output_file => output_file
  | None => rsplit_dot_head input_file ++ lit "_colored.html"
  end.
End Colorize.

(** ** [scripts/test-automation/run_portfolio_test.py] *)

Module PortfolioTest.
Import Colorize.

(** The name of the folder [create_archive_folder] creates: [timestamp]
    is the formatted clock reading, [lower] is [str.lower]. *)
Definition folder_name (lower : str -> str) (timestamp description : str)
  : str :=
  let slug := take 50 (replace_char 32%N (lit "-") (lower description)) in
  timestamp ++ lit "_" ++ slug.
End PortfolioTest.

(** ** What the control flow guarantees, whatever the arithmetic *)

Section Control.
Context {F : Type} `{Float F}.
Implicit Types (n i k : Z) (start : F) (firstDelta : option F).

Lemma collect_pure {A} (f : Z -> A) (r : list Z) :
  collect (fun i => Ok (f i)) r = Ok (f <$> r).
Proof.
  induction r as [|i r IH]; simpl; [reflexivity|].
  rewrite IH. reflexivity.
Qed.

Lemma collect_ext {A} (f g : Z -> outcome A) (r : list Z) :
  (forall i, i ∈ r -> f i = g i) -> collect f r = collect g r.
Proof.
  induction r as [|i r IH]; intros Hfg; simpl; [reflexivity|].
  rewrite (Hfg i) by apply list_elem_of_here.
  rewrite IH; [reflexivity|].
  intros j Hj. apply Hfg. by apply list_elem_of_further.
Qed.

Lemma denominator_nonzero n : 3 <= n -> denominator n <> 0.
Proof. unfold denominator. nia. Qed.

Lemma denominator_zero n : denominator n = 0 <-> n = 1 \/ n = 2.
Proof. unfold denominator. nia. Qed.

Lemma truediv_ok (x : F) (m : Z) :
  m <> 0 -> truediv x m = Ok (div x (of_int m)).
Proof.
  intros Hm. unfold truediv.
  destruct (Z.eqb_spec m 0); [contradiction | reflexivity].
Qed.

Lemma fit_ok n start firstDelta end_ :
  3 <= n ->
  fit n start firstDelta end_ =
    Ok (curve n start firstDelta end_ <$> range n).
Proof.
  intros Hn. unfold fit, curve. destruct firstDelta as [d|].
  - unfold coefficients.
    destruct (Z.eqb_spec (denominator n) 0) as [E|E].
    + by apply denominator_nonzero in E.
    + rewrite truediv_ok by done. simpl. apply collect_pure.
  - rewrite <- collect_pure. apply collect_ext. intros i _.
    unfold natural_value. rewrite truediv_ok by lia. reflexivity.
Qed.

Lemma length_range n : 0 <= n -> Z.of_nat (length (range n)) = n.
Proof. intros Hn. unfold range. rewrite length_seqZ. lia. Qed.

Lemma getitem_lookup {A} (l : list A) i :
  0 <= i < Z.of_nat (length l) ->
  exists x, l !! Z.to_nat i = Some x /\ getitem l i = Ok x.
Proof.
  intros Hi. unfold getitem, position, in_range.
  destruct (Z.ltb_spec i 0); [lia|].
  destruct (Z.leb_spec 0 i); [|lia].
  destruct (Z.ltb_spec i (Z.of_nat (length l))); [|lia]. simpl.
  destruct (lookup_lt_is_Some_2 l (Z.to_nat i)) as [x Hx]; [lia|].
  exists x. by rewrite Hx.
Qed.

Lemma getitem_Some {A} (l : list A) i x :
  0 <= i -> l !! Z.to_nat i = Some x -> getitem l i = Ok x.
Proof.
  intros Hi Hx.
  destruct (getitem_lookup l i) as (y & Hy & ->).
  - apply lookup_lt_Some in Hx. lia.
  - congruence.
Qed.

Lemma reassert_ok n start firstDelta end_ (l : list F) :
  3 <= n -> Z.of_nat (length l) = n ->
  reassert n start firstDelta end_ l =
    Ok (reasserted n start firstDelta end_ l).
Proof.
  intros Hn Hl. unfold reassert, reasserted, setitem, position, in_range.
  simpl. rewrite Hl.
  destruct (Z.ltb_spec 0 n); [|lia]. simpl.
  rewrite length_insert, Hl.
  destruct (Z.leb_spec 0 (-1 + n)); [|lia].
  destruct (Z.ltb_spec (-1 + n) n); [|lia]. simpl.
  replace (-1 + n) with (n - 1) by lia.
  destruct firstDelta as [d|]; [|reflexivity].
  destruct (Z.ltb_spec 1 n); [|lia].
  rewrite !length_insert, Hl.
  destruct (Z.ltb_spec 1 n); [|lia]. reflexivity.
Qed.

Lemma length_reasserted n start firstDelta end_ (l : list F) :
  length (reasserted n start firstDelta end_ l) = length l.
Proof.
  unfold reasserted. destruct firstDelta; by rewrite !length_insert.
Qed.

Lemma lookup_reasserted n start firstDelta end_ i :
  3 <= n -> 0 <= i < n ->
  reasserted n start firstDelta end_
      (curve n start firstDelta end_ <$> range n) !! Z.to_nat i =
    Some (element n start firstDelta end_ i).
Proof.
  intros Hn Hi. unfold reasserted, element.
  set (l := curve n start firstDelta end_ <$> range n).
  assert (Hl : length l = Z.to_nat n).
  { unfold l, range. by rewrite length_fmap, length_seqZ. }
  assert (Hraw : l !! Z.to_nat i = Some (curve n start firstDelta end_ i)).
  { unfold l, range. rewrite list_lookup_fmap, lookup_seqZ_lt by lia.
    simpl. do 2 f_equal. lia. }
  assert (Hrest :
    <[Z.to_nat (n - 1) := end_]> (<[0%nat := start]> l) !! Z.to_nat i =
      Some (if i =? n - 1 then end_
            else if i =? 0 then start
            else curve n start firstDelta end_ i)).
  { destruct (Z.eqb_spec i (n - 1)) as [->|Hlast].
    - rewrite list_lookup_insert_eq; [done|]. rewrite length_insert. lia.
    - rewrite list_lookup_insert_ne by lia.
      destruct (Z.eqb_spec i 0) as [->|Hfirst].
      + rewrite list_lookup_insert_eq; [done|]. lia.
      + rewrite list_lookup_insert_ne by lia. exact Hraw. }
  destruct firstDelta as [d|]; [|exact Hrest].
  destruct (Z.eqb_spec i 1) as [->|Hsecond].
  - rewrite list_lookup_insert_eq; [done|]. rewrite !length_insert. lia.
  - rewrite list_lookup_insert_ne by lia. exact Hrest.
Qed.

(** With [ith] absent and [n >= 3] the function returns a sequence of
    length [n] whose entries are given by [element]. *)
Lemma generate_sequence_full n start firstDelta end_ :
  3 <= n ->
  exists sequence,
    generate_sequence n start firstDelta end_ None = Ok (Sequence sequence)
    /\ Z.of_nat (length sequence) = n
    /\ forall i, 0 <= i < n ->
         getitem sequence i = Ok (element n start firstDelta end_ i).
Proof.
  intros Hn.
  exists (reasserted n start firstDelta end_
            (curve n start firstDelta end_ <$> range n)).
  assert (Hlen : Z.of_nat (length (curve n start firstDelta end_ <$> range n))
                 = n).
  { rewrite length_fmap. apply length_range. lia. }
  split; [|split].
  - unfold generate_sequence.
    destruct (Z.ltb_spec n 3); [lia|].
    rewrite fit_ok by done. simpl.
    rewrite reassert_ok by done. reflexivity.
  - by rewrite length_reasserted.
  - intros i Hi. apply getitem_Some; [lia|].
    by apply lookup_reasserted.
Qed.

(** Asking for one element runs the same fit and the same assignments,
    then reads the list. *)
Lemma generate_sequence_ith n start firstDelta end_ sequence k :
  generate_sequence n start firstDelta end_ None = Ok (Sequence sequence) ->
  generate_sequence n start firstDelta end_ (Some k) = query n sequence k.
Proof.
  unfold generate_sequence. destruct (n <? 3); [discriminate|].
  destruct (fit n start firstDelta end_) as [l|e]; simpl; [|discriminate].
  destruct (reassert n start firstDelta end_ l) as [l'|e];
    simpl; [|discriminate].
  by intros [= ->].
Qed.
End Control.

(** ** Validation, boundary values and the element query *)

Section Contract.
Context {F : Type} `{Float F}.
Implicit Types (n i k : Z) (start : F) (firstDelta : option F).

Lemma query_ok n (sequence : list F) k :
  Z.of_nat (length sequence) = n -> 0 <= k < n ->
  exists value, getitem sequence k = Ok value /\
    ((k = 0 /\ query n sequence k = Ok (Element value (of_int 0))) \/
     (k <> 0 /\ exists previous, getitem sequence (k - 1) = Ok previous /\
        query n sequence k = Ok (Element value (sub value previous)))).
Proof.
  intros Hlen Hk.
  destruct (getitem_lookup sequence k) as (value & _ & Hvalue); [lia|].
  exists value. split; [done|]. unfold query. rewrite Z.geb_leb.
  destruct (Z.ltb_spec k 0); [lia|].
  destruct (Z.leb_spec n k); [lia|]. simpl. rewrite Hvalue. simpl.
  destruct (Z.eqb_spec k 0) as [->|Hk0]; [by left|]. right.
  split; [done|].
  destruct (getitem_lookup sequence (k - 1)) as (previous & _ & Hprev);
    [lia|].
  exists previous. rewrite Hprev. by split.
Qed.

Lemma query_out_of_range n (sequence : list F) k :
  k < 0 \/ n <= k -> query n sequence k = Raise (IndexOutOfRange k n).
Proof.
  intros Hk. unfold query. rewrite Z.geb_leb.
  destruct (Z.ltb_spec k 0); [done|].
  destruct (Z.leb_spec n k); [done|]. lia.
Qed.

Lemma generate_sequence_short n start firstDelta (end_ : F) ith :
  n < 3 -> generate_sequence n start firstDelta end_ ith = Raise InvalidLength.
Proof.
  intros Hn. unfold generate_sequence.
  destruct (Z.ltb_spec n 3); [done|lia].
Qed.

(** Every call with [n >= 3] either returns or fails with the index
    message, according to [ith]. *)
Lemma generate_sequence_cases n start firstDelta (end_ : F) ith :
  3 <= n ->
  match ith with
  | None => exists r, generate_sequence n start firstDelta end_ ith = Ok r
  | Some k =>
      if (k <? 0) || (k >=? n)
      then generate_sequence n start firstDelta end_ ith =
             Raise (IndexOutOfRange k n)
      else exists r, generate_sequence n start firstDelta end_ ith = Ok r
  end.
Proof.
  intros Hn.
  destruct (generate_sequence_full n start firstDelta end_ Hn)
    as (sequence & Hfull & Hlen & _).
  destruct ith as [k|]; [|eauto].
  rewrite (generate_sequence_ith _ _ _ _ _ k Hfull), Z.geb_leb.
  destruct (Z.ltb_spec k 0); simpl.
  - apply query_out_of_range. lia.
  - destruct (Z.leb_spec n k).
    + apply query_out_of_range. lia.
    + destruct (query_ok n sequence k Hlen) as (v & _ & [[_ ->]|[_ (p & _ & ->)]]);
        [lia|eauto..].
Qed.
End Contract.

(** ** Boundary values, element query and validation order *)

Section Claims.
Context {F : Type} `{Float F}.
Implicit Types (n i k : Z) (start : F) (firstDelta : option F).

(** C6. For every [n >= 3], in both modes, the returned sequence holds
    [start] at index [0] and [end] at index [n-1] (which is also index
    [-1]), and when [firstDelta] is present it holds [start + firstDelta]
    at index [1]: the very values the three assignments store, whatever
    the fit computed. *)
Theorem boundary_values_forced n start firstDelta (end_ : F) :
  3 <= n ->
  exists sequence,
    generate_sequence n start firstDelta end_ None = Ok (Sequence sequence)
    /\ getitem sequence 0 = Ok start
    /\ getitem sequence (n - 1) = Ok end_
    /\ getitem sequence (-1) = Ok end_
    /\ forall d, firstDelta = Some d -> getitem sequence 1 = Ok (add start d).
Proof.
  intros Hn.
  destruct (generate_sequence_full n start firstDelta end_ Hn)
    as (sequence & Hfull & Hlen & Hget).
  exists sequence. split; [done|].
  assert (Hlast : getitem sequence (n - 1) = Ok end_).
  { rewrite Hget by lia. unfold element.
    destruct firstDelta; rewrite ?Z.eqb_refl;
      destruct (Z.eqb_spec (n - 1) 1); try lia; reflexivity. }
  repeat split.
  - rewrite Hget by lia. unfold element.
    destruct firstDelta; destruct (Z.eqb_spec 0 (n - 1)); try lia; reflexivity.
  - exact Hlast.
  - rewrite <- Hlast. unfold getitem, position. rewrite Hlen. simpl.
    destruct (Z.ltb_spec (n - 1) 0); [lia|].
    by replace (-1 + n) with (n - 1) by lia.
  - intros d ->. rewrite Hget by lia. reflexivity.
Qed.

(** C7. For every [n >= 3] and every [k] in [[0, n-1]], the call with
    [ith = k] returns the pair whose value is element [k] of the sequence
    the same call returns with [ith] absent, and whose delta is [0] when
    [k = 0] and element [k] minus element [k-1] otherwise. *)
Theorem index_query_equivalence n start firstDelta (end_ : F) k :
  3 <= n -> 0 <= k < n ->
  exists sequence value delta,
    generate_sequence n start firstDelta end_ None = Ok (Sequence sequence)
    /\ generate_sequence n start firstDelta end_ (Some k) =
         Ok (Element value delta)
    /\ getitem sequence k = Ok value
    /\ (k = 0 -> delta = of_int 0)
    /\ (k <> 0 -> exists previous,
          getitem sequence (k - 1) = Ok previous
          /\ delta = sub value previous).
Proof.
  intros Hn Hk.
  destruct (generate_sequence_full n start firstDelta end_ Hn)
    as (sequence & Hfull & Hlen & _).
  destruct (query_ok n sequence k Hlen Hk)
    as (value & Hvalue & [[Hk0 Hq]|[Hk0 (previous & Hprev & Hq)]]).
  - exists sequence, value, (of_int 0).
    rewrite (generate_sequence_ith _ _ _ _ _ k Hfull).
    repeat split; try done.
  - exists sequence, value, (sub value previous).
    rewrite (generate_sequence_ith _ _ _ _ _ k Hfull).
    repeat split; try done. eauto.
Qed.

(** C9. For every [n >= 3] the denominator [(n-1)(n-2)] is not zero, so
    the pinned mode takes the branch that divides, the division raises
    nothing, and the coefficients are the quotient [a], [firstDelta - a]
    and [start]; the branch for a zero denominator is not taken. *)
Theorem denominator_well_defined n start (d end_ : F) :
  3 <= n ->
  denominator n <> 0
  /\ (denominator n =? 0) = false
  /\ exists a,
       truediv (sub (sub end_ start) (mul d (of_int (n - 1)))) (denominator n)
         = Ok a
       /\ coefficients n start d end_ = Ok (a, sub d a, start).
Proof.
  intros Hn. pose proof (denominator_nonzero n Hn) as Hd.
  split; [done|]. split; [by apply Z.eqb_neq|].
  eexists. split; [by apply truediv_ok|].
  unfold coefficients.
  destruct (Z.eqb_spec (denominator n) 0); [done|].
  by rewrite truediv_ok.
Qed.

(** C10. When [n < 3] and [ith] is supplied outside [[0, n-1]], the call
    fails with the length message and not with the index message: the
    length is checked first. *)
Theorem length_checked_first n start firstDelta (end_ : F) k :
  n < 3 -> k < 0 \/ n <= k ->
  generate_sequence n start firstDelta end_ (Some k) = Raise InvalidLength
  /\ ~ is_index_out_of_range
         (generate_sequence n start firstDelta end_ (Some k)).
Proof.
  intros Hn _. rewrite generate_sequence_short by done.
  split; [done|]. intros (i & m & [=]).
Qed.
End Claims.

(** ** The order of binary64 numbers *)

Section Order.


End Order.

(** ** Conversions that fail *)

Section Overflow.
Context {F : Type} `{Float F}.
Variable fits : Z -> bool.
Implicit Types (n i k : Z) (start : F) (firstDelta : option F).

(** Splits the six statements about a call, and their equivalences. *)
Ltac six_ways :=
  split; [|split; [|split; [|split; [|split]]]];
  [split | split | split | split | |].

Lemma collect_checked (a b c : F) (r : list Z) :
  collect (pinned_value_checked fits a b c) r =
    if forallb (fun i => fits (i ^ 2) && fits i) r
    then collect (fun i => Ok (pinned_value a b c i)) r
    else Raise OverflowError.
Proof.
  induction r as [|i r IH]; [reflexivity|].
  cbn [collect forallb]. rewrite IH.
  unfold pinned_value_checked, pinned_value, to_float.
  destruct (fits (i ^ 2)); [|reflexivity].
  destruct (fits i); [|reflexivity].
  destruct (forallb _ r); reflexivity.
Qed.

Lemma fit_checked_spec n start firstDelta end_ :
  3 <= n ->
  fit_checked fits n start firstDelta end_ =
    if overflows fits n firstDelta then Raise OverflowError
    else fit n start firstDelta end_.
Proof.
  intros Hn. destruct firstDelta as [d|]; [|reflexivity].
  unfold fit_checked, fit, overflows, conversions_fit.
  unfold coefficients_checked, coefficients, truediv_checked, truediv, to_float.
  destruct (Z.eqb_spec (denominator n) 0) as [E|E].
  { by apply denominator_nonzero in E. }
  destruct (fits (n - 1)); [|reflexivity].
  destruct (fits (denominator n)); [|reflexivity].
  cbn [mbind outcome_bind andb negb]. rewrite collect_checked.
  destruct (forallb _ (range n)); reflexivity.
Qed.

(** The call with the conversions that can fail raises [OverflowError]
    where one does, and is the call of [generate_sequence] elsewhere. *)
Lemma generate_sequence_checked_spec n start firstDelta end_ ith :
  generate_sequence_checked fits n start firstDelta end_ ith =
    if (3 <=? n) && overflows fits n firstDelta then Raise OverflowError
    else generate_sequence n start firstDelta end_ ith.
Proof.
  unfold generate_sequence_checked, generate_sequence.
  destruct (Z.ltb_spec n 3) as [Hn|Hn].
  - destruct (Z.leb_spec 3 n); [lia|]. reflexivity.
  - destruct (Z.leb_spec 3 n); [|lia].
    rewrite fit_checked_spec by done.
    destruct (overflows fits n firstDelta); reflexivity.
Qed.

Lemma generate_sequence_checked_ok n start firstDelta end_ ith :
  overflows fits n firstDelta = false ->
  generate_sequence_checked fits n start firstDelta end_ ith =
    generate_sequence n start firstDelta end_ ith.
Proof.
  intros Hov. rewrite generate_sequence_checked_spec, Hov.
  by rewrite andb_false_r.
Qed.

Lemma coefficients_checked_ok n start (d end_ : F) :
  overflows fits n (Some d) = false ->
  coefficients_checked fits n start d end_ = coefficients n start d end_.
Proof.
  unfold overflows, conversions_fit. intros Hov.
  apply negb_false_iff in Hov.
  apply andb_true_iff in Hov as [Hov _].
  apply andb_true_iff in Hov as [Hwidth Hden].
  unfold coefficients_checked, coefficients, truediv_checked, truediv,
    to_float.
  rewrite Hwidth, Hden. reflexivity.
Qed.

(** C8. With conversions that can fail, the call fails with the length
    message exactly when [n < 3]; it fails with [OverflowError] exactly
    when [n >= 3], [firstDelta] is present and one of the integers the
    pinned mode converts ([n-1], [(n-1)(n-2)], and [i ** 2] and [i] for
    an index [i]) is too large for a float; it fails with the index
    message exactly when [n >= 3], no conversion fails and [ith] is
    supplied with [ith < 0] or [ith >= n]; it returns a result exactly on
    the remaining inputs, and there it is the call of
    [generate_sequence]; and it raises nothing else. *)
Theorem failure_modes_with_overflow n start firstDelta (end_ : F) ith :
  let call := generate_sequence_checked fits n start firstDelta end_ ith in
  let overflow := overflows fits n firstDelta = true in
  (call = Raise InvalidLength <-> n < 3)
  /\ (call = Raise OverflowError <-> 3 <= n /\ overflow)
  /\ (is_index_out_of_range call <->
        3 <= n /\ ~ overflow
        /\ exists k, ith = Some k /\ (k < 0 \/ n <= k))
  /\ ((exists r, call = Ok r) <->
        3 <= n /\ ~ overflow /\ forall k, ith = Some k -> 0 <= k < n)
  /\ ((exists r, call = Ok r) ->
        call = generate_sequence n start firstDelta end_ ith)
  /\ (forall e, call = Raise e ->
        e = InvalidLength \/ e = OverflowError
        \/ exists k, ith = Some k /\ e = IndexOutOfRange k n).
Proof.
  intros call overflow. subst call overflow.
  rewrite generate_sequence_checked_spec.
  destruct (Z.leb_spec 3 n) as [Hn|Hn]; cbn [andb].
  2: { rewrite generate_sequence_short by done. six_ways.
       - done.
       - done.
       - intros [=].
       - intros [? _]. lia.
       - intros (k & m & [=]).
       - intros [? _]. lia.
       - intros [r [=]].
       - intros [? _]. lia.
       - done.
       - intros e [= <-]. by left. }
  destruct (overflows fits n firstDelta) eqn:Hov.
  { six_ways.
    - intros [=].
    - lia.
    - done.
    - done.
    - intros (k & m & [=]).
    - intros (_ & Hno & _). by destruct Hno.
    - intros [r [=]].
    - intros (_ & Hno & _). by destruct Hno.
    - intros [r [=]].
    - intros e [= <-]. right. by left. }
  pose proof (generate_sequence_cases n start firstDelta end_ ith Hn) as Hc.
  assert (Hcall :
    (exists k, ith = Some k /\ (k < 0 \/ n <= k)
       /\ generate_sequence n start firstDelta end_ ith =
            Raise (IndexOutOfRange k n))
    \/ ((forall k, ith = Some k -> 0 <= k < n)
        /\ exists r, generate_sequence n start firstDelta end_ ith = Ok r)).
  { destruct ith as [k|].
    - rewrite Z.geb_leb in Hc.
      destruct (Z.ltb_spec k 0); cbn [orb] in Hc;
        [|destruct (Z.leb_spec n k)].
      + left. exists k. repeat split; [lia|done].
      + left. exists k. repeat split; [lia|done].
      + right. split; [|done]. intros k' [= <-]. lia.
    - right. split; [|done]. intros k' [=]. }
  clear Hc.
  destruct Hcall as [(k & -> & Hk & ->)|(Hin & r & ->)]; six_ways.
  - intros [=].
  - lia.
  - intros [=].
  - intros [_ [=]].
  - intros _. split; [done|]. split; [done|]. by exists k.
  - intros _. by exists k, n.
  - intros [r [=]].
  - intros (_ & _ & Hall). specialize (Hall k eq_refl). lia.
  - done.
  - intros e [= <-]. right. right. by exists k.
  - intros [=].
  - lia.
  - intros [=].
  - intros [_ [=]].
  - intros (k & m & [=]).
  - intros (_ & _ & k & Hith & Hk). specialize (Hin k Hith). lia.
  - intros _. split; [done|]. split; [done|]. exact Hin.
  - intros _. by exists r.
  - done.
  - intros e [=].
Qed.
End Overflow.

(** ** The entries of the returned sequence *)

Section Entries.
Context {F : Type} `{Float F}.
Variable fits : Z -> bool.
Implicit Types (n i k : Z) (start : F) (firstDelta : option F).

Lemma element_first n start firstDelta end_ :
  3 <= n -> element n start firstDelta end_ 0 = start.
Proof.
  intros Hn. unfold element.
  destruct firstDelta; destruct (Z.eqb_spec 0 (n - 1)); try lia; reflexivity.
Qed.

Lemma element_last n start firstDelta end_ :
  3 <= n -> element n start firstDelta end_ (n - 1) = end_.
Proof.
  intros Hn. unfold element.
  destruct firstDelta; rewrite ?Z.eqb_refl;
    destruct (Z.eqb_spec (n - 1) 1); try lia; reflexivity.
Qed.

Lemma element_second n start d end_ :
  element n start (Some d) end_ 1 = add start d.
Proof. reflexivity. Qed.

Lemma element_inside n start firstDelta end_ i :
  2 <= i <= n - 2 ->
  element n start firstDelta end_ i = curve n start firstDelta end_ i.
Proof.
  intros Hi. unfold element.
  destruct firstDelta;
    repeat match goal with
           | |- context [?x =? ?y] => destruct (Z.eqb_spec x y); try lia
           end; reflexivity.
Qed.

(** The sequence of a call in which every conversion succeeds, with its
    two ends. *)
Lemma generate_sequence_ends n start firstDelta end_ :
  3 <= n -> overflows fits n firstDelta = false ->
  exists sequence,
    generate_sequence_checked fits n start firstDelta end_ None =
      Ok (Sequence sequence)
    /\ Z.of_nat (length sequence) = n
    /\ getitem sequence 0 = Ok start
    /\ getitem sequence (n - 1) = Ok end_
    /\ forall i, 0 <= i < n ->
         getitem sequence i = Ok (element n start firstDelta end_ i).
Proof.
  intros Hn Hov. rewrite generate_sequence_checked_ok by done.
  destruct (generate_sequence_full n start firstDelta end_ Hn)
    as (sequence & Hfull & Hlen & Hget).
  exists sequence. repeat split; try done.
  - rewrite Hget by lia. by rewrite element_first.
  - rewrite Hget by lia. by rewrite element_last.
Qed.

(** C4. For every [n >= 3] with [firstDelta] present, in a call whose
    conversions all succeed, the coefficients are
    [a = (end - start - firstDelta (n-1)) / ((n-1)(n-2))],
    [b = firstDelta - a] and [c = start], each operation as the
    arithmetic computes it; the returned sequence has [n] entries; it
    holds [a i^2 + b i + c], as computed, at every index [i] from [2] to
    [n-2]; and at the indices [0], [1] and [n-1] it holds [start],
    [start + firstDelta] and [end], the values assigned after the loop,
    whatever the quadratic gives there. *)
Theorem pinned_mode_entries n start (d end_ : F) :
  3 <= n -> overflows fits n (Some d) = false ->
  exists a sequence,
    a = div (sub (sub end_ start) (mul d (of_int (n - 1))))
            (of_int ((n - 1) * (n - 2)))
    /\ coefficients_checked fits n start d end_ = Ok (a, sub d a, start)
    /\ generate_sequence_checked fits n start (Some d) end_ None =
         Ok (Sequence sequence)
    /\ Z.of_nat (length sequence) = n
    /\ getitem sequence 0 = Ok start
    /\ getitem sequence 1 = Ok (add start d)
    /\ getitem sequence (n - 1) = Ok end_
    /\ forall i, 2 <= i <= n - 2 ->
         getitem sequence i =
           Ok (add (add (mul a (of_int (i ^ 2))) (mul (sub d a) (of_int i)))
                   start).
Proof.
  intros Hn Hov.
  destruct (generate_sequence_ends n start (Some d) end_ Hn Hov)
    as (sequence & Hfull & Hlen & Hfirst & Hlast & Hget).
  eexists. exists sequence. split; [reflexivity|].
  split.
  { rewrite coefficients_checked_ok by done. unfold coefficients.
    destruct (Z.eqb_spec (denominator n) 0) as [E|E].
    - by apply denominator_nonzero in E.
    - by rewrite truediv_ok. }
  do 3 (split; [done|]).
  split; [by rewrite Hget by lia|]. split; [done|].
  intros i Hi. rewrite Hget by lia.
  by rewrite element_inside.
Qed.

(** The natural mode, for every arithmetic. *)
Lemma natural_mode_entries_any n start (end_ : F) :
  3 <= n ->
  exists sequence,
    generate_sequence_checked fits n start None end_ None =
      Ok (Sequence sequence)
    /\ Z.of_nat (length sequence) = n
    /\ getitem sequence 0 = Ok start
    /\ getitem sequence (n - 1) = Ok end_
    /\ forall i, 1 <= i <= n - 2 ->
         getitem sequence i =
           Ok (add start
                 (mul (sub end_ start)
                      (sqr (div (of_int i) (of_int (n - 1)))))).
Proof.
  intros Hn.
  destruct (generate_sequence_ends n start None end_ Hn eq_refl)
    as (sequence & Hfull & Hlen & Hfirst & Hlast & Hget).
  exists sequence. do 4 (split; [done|]).
  intros i Hi. rewrite Hget by lia. unfold element.
  destruct (Z.eqb_spec i (n - 1)); [lia|].
  destruct (Z.eqb_spec i 0); [lia|]. reflexivity.
Qed.
End Entries.

(** C5. For every [n >= 3] with [firstDelta] absent, whatever the
    arithmetic and the integers that convert, the call returns a
    sequence of [n] entries that holds [start] at index [0] and [end] at
    index [n-1], the values assigned after the loop, and holds
    [start + (end - start) (i / (n-1)) ** 2], each operation as the
    arithmetic computes it, at every index [i] from [1] to [n-2].  In
    particular, on binary64 numbers with a [pow] for which [0.5 ** 2] is
    [0.25], the call with [n = 7], [start = 0.0] and [end = 0.7] holds
    [0.175] at index [3]. *)
Theorem natural_mode_entries :
  (forall (F : Type) (arithmetic : Float F) (fits : Z -> bool) (n : Z)
          (start end_ : F),
     3 <= n ->
     exists sequence,
       generate_sequence_checked fits n start None end_ None =
         Ok (Sequence sequence)
       /\ Z.of_nat (length sequence) = n
       /\ getitem sequence 0 = Ok start
       /\ getitem sequence (n - 1) = Ok end_
       /\ forall i, 1 <= i <= n - 2 ->
            getitem sequence i =
              Ok (add start
                    (mul (sub end_ start)
                         (sqr (div (of_int i) (of_int (n - 1)))))))
  /\ (forall pow2 : float -> float,
        pow2 0.5%float = 0.25%float ->
        exists sequence,
          @generate_sequence_checked float (binary64 pow2) fits_binary64 7
              0.0%float None 0.7%float None = Ok (Sequence sequence)
          /\ getitem sequence 3 = Ok 0.175%float).
Proof.
  split.
  - intros F arithmetic fits n start end_. apply natural_mode_entries_any.
  - intros pow2 Hpow.
    destruct (@natural_mode_entries_any float (binary64 pow2) fits_binary64
                7 0.0%float 0.7%float ltac:(lia))
      as (sequence & Hfull & _ & _ & _ & Hget).
    exists sequence. split; [done|].
    rewrite (Hget 3) by lia. vm_compute. rewrite Hpow. reflexivity.
Qed.

(** ** Where the sequence can increase *)

Section Shape.
Context {F : Type} `{Float F}.
Variable fits : Z -> bool.
Variable lt : F -> F -> Prop.
Hypothesis lt_trans : forall x y z, lt x y -> lt y z -> lt x z.
Implicit Types (n i j k : Z) (start : F) (firstDelta : option F).






End Shape.

(** ** The relative steps *)

(** C3. On binary64 numbers with a [pow] for which [0.5 ** 2] is [0.25],
    the call with [n = 3], [start = 1.0], [firstDelta] absent and
    [end = 2.0] returns [[1.0; 1.25; 2.0]]: its relative steps are [0.25]
    and then [0.6], so they do not decrease.  The three promises of the
    docstring can be kept between these two ends: [[1.0; 1.45; 2.0]]
    increases, with increasing absolute steps and decreasing relative
    steps. *)
Theorem relative_steps_rise (pow2 : float -> float) :
  pow2 0.5%float = 0.25%float ->
  @generate_sequence_checked float (binary64 pow2) fits_binary64 3 1%float
      None 2%float None = Ok (Sequence [1; 1.25; 2]%float)
  /\ PrimFloat.div (PrimFloat.sub 1.25 1) 1 = 0.25%float
  /\ PrimFloat.div (PrimFloat.sub 2 1.25) 1.25 = 0.6%float
  /\ ~ decreasing_relative_steps [1; 1.25; 2]%float
  /\ strictly_increasing float_lt [1; 1.45; 2]%float
  /\ increasing_absolute_steps float_lt [1; 1.45; 2]%float
  /\ decreasing_relative_steps [1; 1.45; 2]%float.
Proof.
  intros Hpow. split; [|split; [|split; [|split; [|split; [|split]]]]].
  - vm_compute. rewrite Hpow. reflexivity.
  - reflexivity.
  - reflexivity.
  - intros Hdec.
    specialize (Hdec 2 2%float 1.25%float 1%float ltac:(simpl; lia)
                  eq_refl eq_refl eq_refl).
    unfold float_eq, float_lt in Hdec.
    assert (Hlt : PrimFloat.ltb (PrimFloat.div (PrimFloat.sub 2 1.25) 1.25)
                    (PrimFloat.div (PrimFloat.sub 1.25 1) 1) = true).
    { apply Hdec; vm_compute; discriminate. }
    vm_compute in Hlt. discriminate.
  - intros i x y Hi Hx Hy. cbn [length] in Hi.
    assert (Hcase : i = 1 \/ i = 2) by lia.
    destruct Hcase as [->| ->]; vm_compute in Hx, Hy;
      injection Hx as <-; injection Hy as <-; reflexivity.
  - intros i x y z Hi Hx Hy Hz. cbn [length] in Hi.
    assert (i = 2) as -> by lia. vm_compute in Hx, Hy, Hz.
    injection Hx as <-; injection Hy as <-; injection Hz as <-.
    reflexivity.
  - intros i x y z Hi Hx Hy Hz _ _. cbn [length] in Hi.
    assert (i = 2) as -> by lia. vm_compute in Hx, Hy, Hz.
    injection Hx as <-; injection Hy as <-; injection Hz as <-.
    reflexivity.
Qed.

(** ** The conversions on binary64 numbers *)

Section Binary64Conversions.

Lemma fits_binary64_le (x y : Z) :
  Z.abs x <= Z.abs y -> fits_binary64 y = true -> fits_binary64 x = true.
Proof. unfold fits_binary64. rewrite !Z.ltb_lt. lia. Qed.

(** On binary64 numbers the conversions of the pinned mode for length
    [n >= 3] all succeed exactly when the largest of the integers,
    [(n-1) ** 2], converts: when [(n-1)^2 < 2^1024 - 2^970].  The natural
    mode converts nothing that can fail. *)
Theorem conversions_fit_binary64 (n : Z) :
  3 <= n ->
  conversions_fit fits_binary64 n = fits_binary64 ((n - 1) ^ 2)
  /\ (fits_binary64 ((n - 1) ^ 2) = true <->
        (n - 1) ^ 2 < 2 ^ 1024 - 2 ^ 970)
  /\ forall d : float,
       overflows fits_binary64 n (Some d) = negb (fits_binary64 ((n - 1) ^ 2))
       /\ overflows fits_binary64 n (@None float) = false.
Proof.
  intros Hn.
  assert (Hfit : conversions_fit fits_binary64 n =
                 fits_binary64 ((n - 1) ^ 2)).
  { unfold conversions_fit.
    destruct (fits_binary64 ((n - 1) ^ 2)) eqn:Hsq.
    - rewrite (fits_binary64_le (n - 1) ((n - 1) ^ 2)) by (done || nia).
      rewrite (fits_binary64_le (denominator n) ((n - 1) ^ 2))
        by (done || unfold denominator; nia).
      cbn [andb]. apply forallb_forall. intros i Hi.
      apply list_elem_of_In, elem_of_seqZ in Hi.
      rewrite (fits_binary64_le (i ^ 2) ((n - 1) ^ 2)) by (done || nia).
      rewrite (fits_binary64_le i ((n - 1) ^ 2)) by (done || nia).
      reflexivity.
    - apply andb_false_iff. right.
      destruct (forallb _ (range n)) eqn:Hall; [|reflexivity].
      rewrite forallb_forall in Hall.
      specialize (Hall (n - 1)). rewrite Hsq in Hall.
      cbn [andb] in Hall. symmetry.
      apply Hall, list_elem_of_In, elem_of_seqZ. lia. }
  split; [exact Hfit|]. split.
  - unfold fits_binary64. rewrite Z.ltb_lt. rewrite Z.abs_eq by nia. done.
  - intros d. split; [|reflexivity]. unfold overflows. by rewrite Hfit.
Qed.
End Binary64Conversions.

(** ** Concrete calls *)

(** Calls on binary64 numbers at which the properties fail as the
    specification states them. *)



(** C4 fails as stated: with [n = 3], [start = 0.0], [firstDelta = 0.01]
    and [end = 0.5] the sequence holds [0.01] at index [1], where
    [a + b + c] is [0.010000000000000009]. *)
Lemma pinned_entry_off_the_quadratic :
  3 <= 3
  /\ exists a b c sequence,
       coefficients_checked fits_binary64 3 0.0%float 0.01%float 0.5%float =
         Ok (a, b, c)
       /\ generate_sequence_checked fits_binary64 3 0.0%float
            (Some 0.01%float) 0.5%float None = Ok (Sequence sequence)
       /\ getitem sequence 1 = Ok 0.01%float
       /\ pinned_value_checked fits_binary64 a b c 1 =
            Ok 0.010000000000000009%float
       /\ ~ float_eq 0.01 0.010000000000000009.
Proof.
  split; [lia|]. do 4 eexists.
  split; [vm_compute; reflexivity|].
  split; [vm_compute; reflexivity|].
  split; [reflexivity|]. split; [reflexivity|].
  vm_compute. discriminate.
Qed.

(** C5 fails as stated: with [n = 3], [start = 0.2] and [end = 0.9] the
    sequence holds [0.9] at index [2], where
    [start + (end - start) * (2 / 2) ** 2] is [0.8999999999999999]; the
    squares involved, of [0.5] and of [1.0], are exact. *)
Lemma natural_entry_off_the_curve :
  3 <= 3
  /\ exists sequence,
       generate_sequence_checked fits_binary64 3 0.2%float None 0.9%float
           None = Ok (Sequence sequence)
       /\ getitem sequence 2 = Ok 0.9%float
       /\ add 0.2%float
            (mul (sub 0.9%float 0.2%float)
                 (sqr (div (of_int 2) (of_int (3 - 1))))) =
          0.8999999999999999%float
       /\ ~ float_eq 0.9 0.8999999999999999.
Proof.
  split; [lia|]. eexists.
  split; [vm_compute; reflexivity|].
  split; [reflexivity|]. split; [reflexivity|].
  vm_compute. discriminate.
Qed.

(** C8 fails as stated: with [n = 10 ** 200], which is at least [3], and
    [ith] absent, the pinned mode raises [OverflowError] when it divides
    by the denominator: neither of the two failures, and no result. *)
Lemma overflow_is_a_third_failure :
  3 <= 10 ^ 200
  /\ fits_binary64 (10 ^ 200 - 1) = true
  /\ fits_binary64 (denominator (10 ^ 200)) = false
  /\ generate_sequence_checked fits_binary64 (10 ^ 200) 0.0%float
       (Some 0.05%float) 0.7%float None = Raise OverflowError
  /\ Raise OverflowError <> (Raise InvalidLength : outcome (result float))
  /\ ~ is_index_out_of_range (Raise OverflowError : outcome (result float)).
Proof.
  split; [vm_compute; discriminate|].
  split; [vm_compute; reflexivity|].
  split; [vm_compute; reflexivity|].
  split; [vm_compute; reflexivity|].
  split; [discriminate|]. intros (k & m & [=]).
Qed.

(** The largest integer that converts, and the first that does not. *)
Example float_of_int_at_the_bound :
  float_of_int (2 ^ 1024 - 2 ^ 970 - 1) = 1.7976931348623157e+308%float
  /\ fits_binary64 (2 ^ 1024 - 2 ^ 970 - 1) = true
  /\ float_of_int (2 ^ 1024 - 2 ^ 970) = infinity
  /\ fits_binary64 (2 ^ 1024 - 2 ^ 970) = false.
Proof. vm_compute. repeat split. Qed.

(** In the natural mode too [end > start] is not enough on binary64
    numbers: from [start = 1e16] to [end = 1e16 + 8] in five entries,
    the first step is rounded away (with a [pow] for which [0.25 ** 2]
    is [0.0625]). *)
Example natural_mode_stalls (pow2 : float -> float) :
  pow2 0.25%float = 0.0625%float ->
  float_lt 1e16 10000000000000008
  /\ exists sequence,
       @generate_sequence_checked float (binary64 pow2) fits_binary64 5
           1e16%float None 10000000000000008%float None =
         Ok (Sequence sequence)
       /\ getitem sequence 0 = Ok 1e16%float
       /\ getitem sequence 1 = Ok 1e16%float.
Proof.
  intros Hpow. split; [reflexivity|]. eexists.
  split; [vm_compute; rewrite Hpow; reflexivity|].
  split; reflexivity.
Qed.

(** The call of the first test of the module, with [n = 10] and the
    defaults of the signature, keeps the three promises of the docstring
    on binary64 numbers: the sequence is strictly increasing, its
    absolute steps increase, and its relative steps decrease wherever
    they are defined. *)
Theorem defaults_keep_the_docstring :
  exists sequence,
    generate_sequence_checked fits_binary64 10 0.0%float (Some 0.05%float)
        0.7%float None = Ok (Sequence sequence)
    /\ strictly_increasing float_lt sequence
    /\ increasing_absolute_steps float_lt sequence
    /\ decreasing_relative_steps sequence.
Proof.
  eexists. split; [vm_compute; reflexivity|]. split; [|split].
  - intros i x y Hi Hx Hy. cbn [length] in Hi.
    assert (Hcase : i = 1 \/ i = 2 \/ i = 3 \/ i = 4 \/ i = 5 \/ i = 6
                    \/ i = 7 \/ i = 8 \/ i = 9) by lia.
    repeat destruct Hcase as [->|Hcase]; try subst i;
      vm_compute in Hx, Hy; injection Hx as <-; injection Hy as <-;
      reflexivity.
  - intros i x y z Hi Hx Hy Hz. cbn [length] in Hi.
    assert (Hcase : i = 2 \/ i = 3 \/ i = 4 \/ i = 5 \/ i = 6
                    \/ i = 7 \/ i = 8 \/ i = 9) by lia.
    repeat destruct Hcase as [->|Hcase]; try subst i;
      vm_compute in Hx, Hy, Hz;
      injection Hx as <-; injection Hy as <-; injection Hz as <-;
      reflexivity.
  - intros i x y z Hi Hx Hy Hz Hy0 Hz0. cbn [length] in Hi.
    assert (Hcase : i = 2 \/ i = 3 \/ i = 4 \/ i = 5 \/ i = 6
                    \/ i = 7 \/ i = 8 \/ i = 9) by lia.
    repeat destruct Hcase as [->|Hcase]; try subst i;
      vm_compute in Hx, Hy, Hz;
      injection Hx as <-; injection Hy as <-; injection Hz as <-;
      first [reflexivity | exfalso; apply Hz0; reflexivity].
Qed.

(** The scenarios of the specification, run on binary64 numbers. *)

Example scenario_pinned_boundaries :
  exists sequence,
    generate_sequence 10 0.0%float (Some 0.05%float) 0.7%float None =
      Ok (Sequence sequence)
    /\ getitem sequence 0 = Ok 0.0%float
    /\ getitem sequence 1 = Ok 0.05%float
    /\ getitem sequence 9 = Ok 0.7%float.
Proof. eexists. vm_compute. repeat split. Qed.

Example scenario_natural_midpoint (pow2 : float -> float) :
  pow2 0.5%float = 0.25%float ->
  exists delta,
    @generate_sequence float (binary64 pow2) 7 0.0%float None 0.7%float
        (Some 3) = Ok (Element 0.175%float delta).
Proof. intros Hpow. eexists. vm_compute. rewrite Hpow. reflexivity. Qed.

Example scenario_first_index :
  generate_sequence 10 0.0%float (Some 0.05%float) 0.7%float (Some 0) =
    Ok (Element 0.0%float 0%float).
Proof. vm_compute. reflexivity. Qed.

Example scenario_last_index :
  exists sequence last previous,
    generate_sequence 10 0.0%float (Some 0.05%float) 0.7%float None =
      Ok (Sequence sequence)
    /\ getitem sequence 9 = Ok last
    /\ getitem sequence 8 = Ok previous
    /\ generate_sequence 10 0.0%float (Some 0.05%float) 0.7%float (Some 9) =
         Ok (Element 0.7%float (PrimFloat.sub last previous)).
Proof. do 3 eexists. vm_compute. repeat split. Qed.

Example scenario_too_short :
  generate_sequence 2 0.0%float (Some 0.05%float) 0.7%float None =
    Raise InvalidLength
  /\ generate_sequence 0 0.0%float (Some 0.05%float) 0.7%float None =
       Raise InvalidLength.
Proof. vm_compute. split; reflexivity. Qed.

Example scenario_index_past_the_end :
  generate_sequence 10 0.0%float (Some 0.05%float) 0.7%float (Some 10) =
    Raise (IndexOutOfRange 10 10).
Proof. vm_compute. reflexivity. Qed.

(** ** The theorems at concrete inputs *)

(** The inputs are the defaults of the signature ([start = 0.0],
    [firstDelta = 0.05], [end = 0.7]) unless the name says otherwise. *)

Lemma boundary_values_forced_at_defaults :
  3 <= 10
  /\ exists sequence,
       generate_sequence 10 0.0%float (Some 0.05%float) 0.7%float None =
         Ok (Sequence sequence)
       /\ getitem sequence 0 = Ok 0.0%float
       /\ getitem sequence (10 - 1) = Ok 0.7%float
       /\ getitem sequence (-1) = Ok 0.7%float
       /\ forall d, Some 0.05%float = Some d ->
            getitem sequence 1 = Ok (PrimFloat.add 0.0 d).
Proof.
  split; [lia|].
  exact (boundary_values_forced 10 0.0%float (Some 0.05%float) 0.7%float
           ltac:(lia)).
Defined.

Lemma index_query_equivalence_at_defaults :
  3 <= 10 /\ 0 <= 9 < 10
  /\ exists sequence value delta,
       generate_sequence 10 0.0%float (Some 0.05%float) 0.7%float None =
         Ok (Sequence sequence)
       /\ generate_sequence 10 0.0%float (Some 0.05%float) 0.7%float (Some 9)
          = Ok (Element value delta)
       /\ getitem sequence 9 = Ok value
       /\ (9 = 0 -> delta = float_of_int 0)
       /\ (9 <> 0 -> exists previous,
             getitem sequence (9 - 1) = Ok previous
             /\ delta = PrimFloat.sub value previous).
Proof.
  split; [lia|]. split; [lia|].
  exact (index_query_equivalence 10 0.0%float (Some 0.05%float) 0.7%float 9
           ltac:(lia) ltac:(lia)).
Defined.

Lemma denominator_well_defined_at_three :
  3 <= 3
  /\ denominator 3 <> 0
  /\ (denominator 3 =? 0) = false
  /\ exists a,
       truediv (sub (sub 0.7%float 0.0%float) (mul 0.05%float (of_int (3 - 1))))
               (denominator 3) = Ok a
       /\ coefficients 3 0.0%float 0.05%float 0.7%float =
            Ok (a, sub 0.05%float a, 0.0%float).
Proof.
  split; [lia|].
  exact (denominator_well_defined 3 0.0%float 0.05%float 0.7%float
           ltac:(lia)).
Defined.

Lemma length_checked_first_at_two :
  2 < 3 /\ (5 < 0 \/ 2 <= 5)
  /\ generate_sequence 2 0.0%float (Some 0.05%float) 0.7%float (Some 5) =
       Raise InvalidLength
  /\ ~ is_index_out_of_range
        (generate_sequence 2 0.0%float (Some 0.05%float) 0.7%float (Some 5)).
Proof.
  split; [lia|]. split; [lia|].
  exact (length_checked_first 2 0.0%float (Some 0.05%float) 0.7%float 5
           ltac:(lia) ltac:(lia)).
Defined.



Lemma relative_steps_rise_with_the_exact_square :
  PrimFloat.mul 0.5 0.5 = 0.25%float
  /\ generate_sequence_checked fits_binary64 3 1%float None 2%float None =
       Ok (Sequence [1; 1.25; 2]%float)
  /\ PrimFloat.div (PrimFloat.sub 1.25 1) 1 = 0.25%float
  /\ PrimFloat.div (PrimFloat.sub 2 1.25) 1.25 = 0.6%float
  /\ ~ decreasing_relative_steps [1; 1.25; 2]%float
  /\ strictly_increasing float_lt [1; 1.45; 2]%float
  /\ increasing_absolute_steps float_lt [1; 1.45; 2]%float
  /\ decreasing_relative_steps [1; 1.45; 2]%float.
Proof.
  split; [reflexivity|].
  exact (relative_steps_rise (fun x => PrimFloat.mul x x) eq_refl).
Defined.

Lemma pinned_mode_entries_at_defaults :
  3 <= 10
  /\ overflows fits_binary64 10 (Some 0.05%float) = false
  /\ exists a sequence,
       a = PrimFloat.div
             (PrimFloat.sub (PrimFloat.sub 0.7 0.0)
                (PrimFloat.mul 0.05 (float_of_int (10 - 1))))
             (float_of_int ((10 - 1) * (10 - 2)))
       /\ coefficients_checked fits_binary64 10 0.0%float 0.05%float
            0.7%float = Ok (a, PrimFloat.sub 0.05 a, 0.0%float)
       /\ generate_sequence_checked fits_binary64 10 0.0%float
            (Some 0.05%float) 0.7%float None = Ok (Sequence sequence)
       /\ Z.of_nat (length sequence) = 10
       /\ getitem sequence 0 = Ok 0.0%float
       /\ getitem sequence 1 = Ok (PrimFloat.add 0.0 0.05)
       /\ getitem sequence (10 - 1) = Ok 0.7%float
       /\ forall i, 2 <= i <= 10 - 2 ->
            getitem sequence i =
              Ok (PrimFloat.add
                    (PrimFloat.add (PrimFloat.mul a (float_of_int (i ^ 2)))
                       (PrimFloat.mul (PrimFloat.sub 0.05 a) (float_of_int i)))
                    0.0).
Proof.
  split; [lia|]. split; [reflexivity|].
  exact (pinned_mode_entries fits_binary64 10 0.0%float 0.05%float 0.7%float
           ltac:(lia) eq_refl).
Defined.

Lemma natural_mode_entries_at_seven :
  3 <= 7 /\ PrimFloat.mul 0.5 0.5 = 0.25%float
  /\ (exists sequence,
        generate_sequence_checked fits_binary64 7 0.0%float None 0.7%float
            None = Ok (Sequence sequence)
        /\ Z.of_nat (length sequence) = 7
        /\ getitem sequence 0 = Ok 0.0%float
        /\ getitem sequence (7 - 1) = Ok 0.7%float
        /\ forall i, 1 <= i <= 7 - 2 ->
             getitem sequence i =
               Ok (PrimFloat.add 0.0
                     (PrimFloat.mul (PrimFloat.sub 0.7 0.0)
                        (PrimFloat.mul
                           (PrimFloat.div (float_of_int i)
                                          (float_of_int (7 - 1)))
                           (PrimFloat.div (float_of_int i)
                                          (float_of_int (7 - 1)))))))
  /\ (exists sequence,
        generate_sequence_checked fits_binary64 7 0.0%float None 0.7%float
            None = Ok (Sequence sequence)
        /\ getitem sequence 3 = Ok 0.175%float).
Proof.
  split; [lia|]. split; [reflexivity|]. split.
  - exact (proj1 natural_mode_entries float binary64_float fits_binary64 7
             0.0%float 0.7%float ltac:(lia)).
  - exact (proj2 natural_mode_entries (fun x => PrimFloat.mul x x) eq_refl).
Defined.

Lemma conversions_fit_binary64_at_ten :
  3 <= 10
  /\ conversions_fit fits_binary64 10 = fits_binary64 ((10 - 1) ^ 2)
  /\ (fits_binary64 ((10 - 1) ^ 2) = true <->
        (10 - 1) ^ 2 < 2 ^ 1024 - 2 ^ 970)
  /\ forall d : float,
       overflows fits_binary64 10 (Some d) =
         negb (fits_binary64 ((10 - 1) ^ 2))
       /\ overflows fits_binary64 10 (@None float) = false.
Proof.
  split; [lia|].
  exact (conversions_fit_binary64 10 ltac:(lia)).
Defined.

(** ** Further properties of [generate_sequence] *)

Section MoreControl.
Context {F : Type} `{Float F}.
Implicit Types (n i k : Z) (start : F) (firstDelta : option F).

(** For every [n >= 3] the returned list has [n] entries, and the three
    assignments leave every other entry as the loop computed it: index
    [i] holds the loop's value unless [i] is [0] or [n-1], or [1] when
    [firstDelta] is present. *)
Theorem interior_entries_untouched n start firstDelta (end_ : F) :
  3 <= n ->
  exists sequence,
    generate_sequence n start firstDelta end_ None = Ok (Sequence sequence)
    /\ Z.of_nat (length sequence) = n
    /\ forall i, 0 < i < n - 1 -> (firstDelta = None \/ i <> 1) ->
         getitem sequence i = Ok (curve n start firstDelta end_ i).
Proof.
  intros Hn.
  destruct (generate_sequence_full n start firstDelta end_ Hn)
    as (sequence & Hfull & Hlen & Hget).
  exists sequence. repeat split; try done.
  intros i Hi Hsecond. rewrite Hget by lia. f_equal. unfold element.
  destruct (Z.eqb_spec i (n - 1)); [lia|].
  destruct (Z.eqb_spec i 0); [lia|].
  destruct firstDelta as [d|]; [|done].
  destruct (Z.eqb_spec i 1); [|done].
  by destruct Hsecond.
Qed.

(** For every [n >= 3], asking for index [0] returns [(start, 0)] and
    asking for index [n-1] returns [end] as the value, in both modes. *)
Theorem query_at_the_ends n start firstDelta (end_ : F) :
  3 <= n ->
  generate_sequence n start firstDelta end_ (Some 0) =
    Ok (Element start (of_int 0))
  /\ exists delta,
       generate_sequence n start firstDelta end_ (Some (n - 1)) =
         Ok (Element end_ delta).
Proof.
  intros Hn.
  destruct (generate_sequence_full n start firstDelta end_ Hn)
    as (sequence & Hfull & Hlen & Hget).
  rewrite !(generate_sequence_ith _ _ _ _ _ _ Hfull).
  assert (Hfirst : getitem sequence 0 = Ok start).
  { rewrite Hget by lia. unfold element.
    destruct firstDelta; destruct (Z.eqb_spec 0 (n - 1)); try lia;
      reflexivity. }
  assert (Hlast : getitem sequence (n - 1) = Ok end_).
  { rewrite Hget by lia. unfold element.
    destruct firstDelta; rewrite ?Z.eqb_refl;
      destruct (Z.eqb_spec (n - 1) 1); try lia; reflexivity. }
  split.
  - destruct (query_ok n sequence 0 Hlen ltac:(lia))
      as (v & Hv & [[_ ->]|[? _]]); [|done]. congruence.
  - destruct (query_ok n sequence (n - 1) Hlen ltac:(lia))
      as (v & Hv & [[? _]|[_ (p & _ & ->)]]); [lia|].
    exists (sub v p). congruence.
Qed.

(** For every [n >= 3] with [firstDelta] present, asking for index [1]
    returns the sum [start + firstDelta] as the value and, as the delta,
    that sum minus [start]: the difference of the two stored numbers,
    not [firstDelta] itself. *)
Theorem query_at_the_first_step n start (d end_ : F) :
  3 <= n ->
  generate_sequence n start (Some d) end_ (Some 1) =
    Ok (Element (add start d) (sub (add start d) start)).
Proof.
  intros Hn.
  destruct (generate_sequence_full n start (Some d) end_ Hn)
    as (sequence & Hfull & Hlen & Hget).
  rewrite (generate_sequence_ith _ _ _ _ _ _ Hfull).
  pose proof (Hget 0 ltac:(lia)) as Hfirst.
  pose proof (Hget 1 ltac:(lia)) as Hsecond.
  unfold element in Hfirst, Hsecond.
  destruct (Z.eqb_spec 0 (n - 1)); [lia|].
  change (0 =? 1) with false in Hfirst.
  change (1 =? 1) with true in Hsecond.
  change (0 =? 0) with true in Hfirst. cbv iota in Hfirst, Hsecond.
  destruct (query_ok n sequence 1 Hlen ltac:(lia))
    as (v & Hv & [[? _]|[_ (p & Hp & ->)]]); [lia|].
  change (1 - 1) with 0 in Hp. congruence.
Qed.

End MoreControl.

(** ** The parameter grid of the batch optimisation *)

Section GridProperties.
Context {F : Type}.
Implicit Types (grid : Backtest.ParameterGrid F) (c : Backtest.Combination F).

(** A loop that appends [f x] for every [x] builds the concatenation. *)
Lemma foldl_appending {A B} (g : list B -> A -> list B) (f : A -> list B) :
  (forall acc x, g acc x = acc ++ f x) ->
  forall l acc, foldl g acc l = acc ++ (l ≫= f).
Proof.
  intros Hg l. induction l as [|x l IH]; intros acc; csimpl.
  - by rewrite app_nil_r.
  - rewrite IH, Hg. by rewrite <- app_assoc.
Qed.

(** The loops as a comprehension. *)
Lemma parameter_combinations_bind grid :
  Backtest.parameter_combinations grid =
    spacing ← Backtest.grid_spacing grid;
    target ← Backtest.profit_target grid;
    momentum ← Backtest.momentum_values grid;
    [ {| Backtest.gridSpacing := spacing;
         Backtest.profitTarget := target;
         Backtest.enableMomentumSell := momentum |} ].
Proof.
  unfold Backtest.parameter_combinations.
  rewrite (foldl_appending _ (fun spacing =>
    target ← Backtest.profit_target grid;
    momentum ← Backtest.momentum_values grid;
    [ {| Backtest.gridSpacing := spacing;
         Backtest.profitTarget := target;
         Backtest.enableMomentumSell := momentum |} ])); [done|].
  intros acc spacing.
  rewrite (foldl_appending _ (fun target =>
    momentum ← Backtest.momentum_values grid;
    [ {| Backtest.gridSpacing := spacing;
         Backtest.profitTarget := target;
         Backtest.enableMomentumSell := momentum |} ])); [done|].
  intros acc' target.
  by rewrite (foldl_appending _ (fun momentum =>
    [ {| Backtest.gridSpacing := spacing;
         Backtest.profitTarget := target;
         Backtest.enableMomentumSell := momentum |} ])).
Qed.

Lemma length_bind_blocks {A B} (f : A -> list B) (m : nat) (l : list A) :
  (forall x, length (f x) = m) -> length (l ≫= f) = (length l * m)%nat.
Proof.
  intros Hf. induction l as [|x l IH]; csimpl; [done|].
  rewrite length_app, Hf, IH. lia.
Qed.

Lemma lookup_bind_blocks {A B} (f : A -> list B) (m : nat) (l : list A)
    (i k : nat) x :
  (forall x, length (f x) = m) -> l !! i = Some x -> (k < m)%nat ->
  (l ≫= f) !! (i * m + k)%nat = f x !! k.
Proof.
  intros Hf. revert i. induction l as [|y l IH]; intros i Hx Hk; [done|].
  csimpl. destruct i as [|i]; csimpl in *.
  - injection Hx as ->. rewrite lookup_app_l; [done|]. rewrite Hf. lia.
  - rewrite lookup_app_r; rewrite Hf; [|lia].
    replace (m + i * m + k - m)%nat with (i * m + k)%nat by lia.
    by apply IH.
Qed.

(** The number of combinations is the product of the three list
    lengths, where an absent or empty [enable_momentum_sell] counts as
    the one-element list [[False]]. *)
Theorem parameter_combinations_count grid :
  length (Backtest.parameter_combinations grid) =
    (length (Backtest.grid_spacing grid)
     * length (Backtest.profit_target grid)
     * match Backtest.enable_momentum_sell grid with
       | Some (m :: l) => S (length l)
       | Some [] | None => 1
       end)%nat.
Proof.
  rewrite parameter_combinations_bind.
  set (ms := Backtest.momentum_values grid).
  assert (Hms : length ms =
                match Backtest.enable_momentum_sell grid with
                | Some (m :: l) => S (length l)
                | Some [] | None => 1%nat
                end).
  { unfold ms, Backtest.momentum_values.
    by destruct (Backtest.enable_momentum_sell grid) as [[|m l]|]. }
  rewrite <- Hms.
  rewrite (length_bind_blocks _ (length (Backtest.profit_target grid)
                                 * length ms)); [lia|].
  intros spacing. apply length_bind_blocks.
  intros target. rewrite (length_bind_blocks _ 1); [lia|done].
Qed.

(** A combination is tested exactly when its three members come from
    the three lists of the grid. *)
Theorem parameter_combinations_membership grid c :
  c ∈ Backtest.parameter_combinations grid <->
  Backtest.gridSpacing c ∈ Backtest.grid_spacing grid
  /\ Backtest.profitTarget c ∈ Backtest.profit_target grid
  /\ Backtest.enableMomentumSell c ∈ Backtest.momentum_values grid.
Proof.
  rewrite parameter_combinations_bind. rewrite list_elem_of_bind. split.
  - intros (spacing & Hc & Hs).
    apply list_elem_of_bind in Hc as (target & Hc & Ht).
    apply list_elem_of_bind in Hc as (momentum & Hc & Hm).
    apply list_elem_of_singleton in Hc as ->. by simpl.
  - intros (Hs & Ht & Hm). exists (Backtest.gridSpacing c). split; [|done].
    apply list_elem_of_bind. exists (Backtest.profitTarget c). split; [|done].
    apply list_elem_of_bind. exists (Backtest.enableMomentumSell c).
    split; [|done]. destruct c. simpl. apply list_elem_of_singleton. done.
Qed.

(** The combinations come in the order of the loops: the one built from
    the [i]-th spacing, the [j]-th target and the [k]-th momentum value
    sits at index [(i * targets + j) * momenta + k]. *)
Theorem parameter_combinations_order grid (i j k : nat) spacing target momentum :
  Backtest.grid_spacing grid !! i = Some spacing ->
  Backtest.profit_target grid !! j = Some target ->
  Backtest.momentum_values grid !! k = Some momentum ->
  Backtest.parameter_combinations grid
    !! ((i * length (Backtest.profit_target grid) + j)
        * length (Backtest.momentum_values grid) + k)%nat =
  Some {| Backtest.gridSpacing := spacing;
          Backtest.profitTarget := target;
          Backtest.enableMomentumSell := momentum |}.
Proof.
  intros Hs Ht Hm. rewrite parameter_combinations_bind.
  set (pt := Backtest.profit_target grid) in *.
  set (ms := Backtest.momentum_values grid) in *.
  pose proof (lookup_lt_Some _ _ _ Ht) as Hj.
  pose proof (lookup_lt_Some _ _ _ Hm) as Hk.
  replace ((i * length pt + j) * length ms + k)%nat
    with (i * (length pt * length ms) + (j * length ms + k))%nat by lia.
  rewrite (lookup_bind_blocks _ (length pt * length ms) _ _ _ spacing);
    [| |done|].
  - replace (j * length ms + k)%nat with (j * length ms + (0 * length ms + k))%nat
      by lia.
    rewrite (lookup_bind_blocks _ (length ms) _ _ _ target); [| |done|lia].
    + replace (0 * length ms + k)%nat with (k * 1 + 0)%nat by lia.
      rewrite (lookup_bind_blocks _ 1 _ _ _ momentum);
        [reflexivity|done|done|lia].
    + intros t. by rewrite (length_bind_blocks _ 1); [lia|].
  - intros s. apply length_bind_blocks.
    intros t. by rewrite (length_bind_blocks _ 1); [lia|].
  - nia.
Qed.
End GridProperties.

(** ** The allocation check of the portfolio backtest *)

Section PortfolioProperties.

End PortfolioProperties.

(** ** The interpretations of the analysis tools *)

Section AnalysisProperties.
Local Open Scope R_scope.

(** The beta of a stock is read as low exactly below [1], as market-like
    exactly from [1] to [1.05], and as high exactly above [1.05]: a beta
    between [0.95] and [1] is reported as low, since the test against
    [1] comes first. *)
Theorem beta_interpretation_bands (beta : R) :
  (Analysis.beta_interpretation beta = Analysis.Low <-> beta < 1)
  /\ (Analysis.beta_interpretation beta = Analysis.Market <->
        1 <= beta <= 1.05)
  /\ (Analysis.beta_interpretation beta = Analysis.High <-> 1.05 < beta).
Proof.
  unfold Analysis.beta_interpretation.
  destruct (Rlt_dec beta 1);
    [|destruct (Rle_dec 0.95 beta); [destruct (Rle_dec beta 1.05)|]];
    repeat split; intros; try discriminate; try lra; try done.
Qed.

(** The suitability score is read as poor below [30], fair from [30] to
    below [50], good from [50] to below [70] and excellent from [70] on;
    so a higher score never gets a lower label. *)
Theorem score_interpretation_bands (score : R) :
  (Analysis.score_interpretation score = Analysis.Poor <-> score < 30)
  /\ (Analysis.score_interpretation score = Analysis.Fair <->
        30 <= score < 50)
  /\ (Analysis.score_interpretation score = Analysis.Good <->
        50 <= score < 70)
  /\ (Analysis.score_interpretation score = Analysis.Excellent <->
        70 <= score)
  /\ forall lower, lower <= score ->
       (Analysis.candidate_rank (Analysis.score_interpretation lower) <=
        Analysis.candidate_rank (Analysis.score_interpretation score))%nat.
Proof.
  unfold Analysis.score_interpretation.
  repeat split;
    try (destruct (Rlt_dec score 30);
         [|destruct (Rlt_dec score 50); [|destruct (Rlt_dec score 70)]];
         intros; try discriminate; try lra; done).
  intros lower Hle.
  destruct (Rlt_dec score 30);
    [|destruct (Rlt_dec score 50); [|destruct (Rlt_dec score 70)]];
    (destruct (Rlt_dec lower 30);
     [|destruct (Rlt_dec lower 50); [|destruct (Rlt_dec lower 70)]]);
    simpl; try lia; lra.
Qed.
End AnalysisProperties.

(** ** The conversion of a failed response into an error *)

Section ErrorProperties.
Implicit Types (response : Errors.Response) (e : Errors.BackendAPIError).

Lemma handle_backend_error_raises response :
  400 <= Errors.response_status_code response ->
  exists message details,
    Errors.handle_backend_error response =
      inl (Errors.new_BackendAPIError
             (Errors.response_status_code response) message details).
Proof.
  intros Hs. unfold Errors.handle_backend_error.
  rewrite Z.geb_leb. destruct (Z.leb_spec 400 (Errors.response_status_code
                                                 response)); [|lia].
  destruct (Errors.read_error response) as [[m d]|]; eauto.
Qed.

(** The function returns exactly when the status is below [400]; from
    [400] on it raises, and what it raises is always a
    [BackendAPIError] whose [status_code], also in [to_dict()], is the
    status of the response, whatever the body holds and even when
    decoding the body fails. *)
Theorem handle_backend_error_raises_iff response :
  (Errors.handle_backend_error response = inr tt <->
     Errors.response_status_code response < 400)
  /\ ((exists e, Errors.handle_backend_error response = inl e) <->
        400 <= Errors.response_status_code response)
  /\ forall e, Errors.handle_backend_error response = inl e ->
       Errors.status_code e = Errors.response_status_code response
       /\ Errors.to_dict e !! "status_code" =
            Some (Errors.JInt (Errors.response_status_code response)).
Proof.
  destruct (Z.lt_ge_cases (Errors.response_status_code response) 400)
    as [Hs|Hs].
  - assert (Hret : Errors.handle_backend_error response = inr tt).
    { unfold Errors.handle_backend_error. rewrite Z.geb_leb.
      by destruct (Z.leb_spec 400 (Errors.response_status_code response));
        [lia|]. }
    rewrite Hret. split; [|split].
    + done.
    + split; [intros [e [=]]|lia].
    + intros e [=].
  - destruct (handle_backend_error_raises response Hs) as (m & d & Hraise).
    rewrite Hraise. split; [|split].
    + split; [discriminate|lia].
    + split; [done|]. intros _. eauto.
    + intros e [= <-]. split; reflexivity.
Qed.

(** When the body of a failed response cannot be read as a JSON object
    (decoding raises, or the document is a list, a string, a number,
    a boolean or null), the error carries the response text as its
    message, or ["Request failed"] when the text is empty, and empty
    details; the message is never the empty string. *)
Theorem unreadable_body_gives_text response :
  400 <= Errors.response_status_code response ->
  match Errors.response_json response with
  | Some v => Errors.is_dict v = false
  | None => True
  end ->
  exists text,
    Errors.handle_backend_error response =
      inl {| Errors.status_code := Errors.response_status_code response;
             Errors.message := Errors.JStr text;
             Errors.details := Errors.JDict ∅ |}
    /\ text <> ""
    /\ (Errors.response_text response <> "" ->
        text = Errors.response_text response)
    /\ (Errors.response_text response = "" -> text = "Request failed").
Proof.
  intros Hs Hbody. unfold Errors.handle_backend_error.
  rewrite Z.geb_leb. destruct (Z.leb_spec 400 (Errors.response_status_code
                                                 response)); [|lia].
  assert (Hread : Errors.read_error response = None).
  { unfold Errors.read_error.
    destruct (Errors.response_json response) as [v|]; [|done].
    by destruct v. }
  rewrite Hread.
  destruct (String.eqb_spec (Errors.response_text response) "") as [E|E];
    eexists; (split; [reflexivity|]); repeat split; try done.
Qed.

(** When the body of a failed response is a JSON object, the error
    carries the value under ["error"], or ["Unknown error"] when the key
    is missing; and its details are never a false value other than the
    empty dict: a missing, null, zero or empty ["details"] becomes the
    empty dict. *)
Theorem object_body_gives_error_field response (d : gmap string Errors.json) :
  400 <= Errors.response_status_code response ->
  Errors.response_json response = Some (Errors.JDict d) ->
  exists e,
    Errors.handle_backend_error response = inl e
    /\ Errors.message e = default (Errors.JStr "Unknown error") (d !! "error")
    /\ (match d !! "details" with
        | Some v => if Errors.truthy v then Errors.details e = v
                    else Errors.details e = Errors.JDict ∅
        | None => Errors.details e = Errors.JDict ∅
        end)
    /\ (Errors.truthy (Errors.details e) = true
        \/ Errors.details e = Errors.JDict ∅).
Proof.
  intros Hs Hbody. unfold Errors.handle_backend_error.
  rewrite Z.geb_leb. destruct (Z.leb_spec 400 (Errors.response_status_code
                                                 response)); [|lia].
  unfold Errors.read_error. rewrite Hbody. simpl.
  eexists. split; [reflexivity|]. simpl. split; [|split].
  - by destruct (d !! "error").
  - unfold Errors.or_else. destruct (d !! "details") as [v|]; simpl.
    + by destruct (Errors.truthy v).
    + by destruct (negb _).
  - unfold Errors.or_else. destruct (d !! "details") as [v|]; simpl.
    + destruct (Errors.truthy v) eqn:Ht; [by left|by right].
    + right. by destruct (negb _).
Qed.
End ErrorProperties.

(** ** The synthetic daily bar *)

Section BarProperties.
Local Open Scope R_scope.
Import FetchCurrentPrice.

Lemma foldl_Rmax_spec (x : R) (l : list R) :
  (forall y, y ∈ x :: l -> y <= foldl Rmax x l)
  /\ foldl Rmax x l ∈ x :: l.
Proof.
  revert x. induction l as [|z l IH]; intros x; simpl.
  - split; [|apply list_elem_of_here].
    intros y Hy. apply list_elem_of_singleton in Hy as ->. lra.
  - destruct (IH (Rmax x z)) as [Hub Hin]. split.
    + intros y Hy.
      assert (Rmax x z <= foldl Rmax (Rmax x z) l)
        by (apply Hub, list_elem_of_here).
      apply elem_of_cons in Hy as [->|Hy];
        [pose proof (Rmax_l x z); lra|].
      apply elem_of_cons in Hy as [->|Hy];
        [pose proof (Rmax_r x z); lra|].
      by apply Hub, list_elem_of_further.
    + apply elem_of_cons in Hin as [Heq|Hin].
      * rewrite Heq. unfold Rmax. destruct (Rle_dec x z).
        -- apply list_elem_of_further, list_elem_of_here.
        -- apply list_elem_of_here.
      * by do 2 apply list_elem_of_further.
Qed.

Lemma foldl_Rmin_spec (x : R) (l : list R) :
  (forall y, y ∈ x :: l -> foldl Rmin x l <= y)
  /\ foldl Rmin x l ∈ x :: l.
Proof.
  revert x. induction l as [|z l IH]; intros x; simpl.
  - split; [|apply list_elem_of_here].
    intros y Hy. apply list_elem_of_singleton in Hy as ->. lra.
  - destruct (IH (Rmin x z)) as [Hlb Hin]. split.
    + intros y Hy.
      assert (foldl Rmin (Rmin x z) l <= Rmin x z)
        by (apply Hlb, list_elem_of_here).
      apply elem_of_cons in Hy as [->|Hy];
        [pose proof (Rmin_l x z); lra|].
      apply elem_of_cons in Hy as [->|Hy];
        [pose proof (Rmin_r x z); lra|].
      by apply Hlb, list_elem_of_further.
    + apply elem_of_cons in Hin as [Heq|Hin].
      * rewrite Heq. unfold Rmin. destruct (Rle_dec x z).
        -- apply list_elem_of_here.
        -- apply list_elem_of_further, list_elem_of_here.
      * by do 2 apply list_elem_of_further.
Qed.

Lemma last_elem_of {A} (l : list A) (d : A) : List.last l d ∈ d :: l.
Proof.
  revert d. induction l as [|x l IH]; intros d; simpl.
  - apply list_elem_of_here.
  - destruct l as [|y l].
    + apply list_elem_of_further, list_elem_of_here.
    + destruct (elem_of_cons (y :: l) (List.last (y :: l) d) d) as [Hin _].
      destruct (Hin (IH d)) as [Heq|Htail].
      * rewrite Heq. apply list_elem_of_here.
      * by do 2 apply list_elem_of_further.
Qed.

(** When every minute bar received is well formed, the function returns
    a daily bar that is well formed too: its low is the least low and
    its high the greatest high of the day, both attained by some minute,
    its open and close lie between them, and the adjusted close is the
    close. *)
Theorem synthetic_bar_well_formed (rows : list Row) (today : string) :
  rows <> [] -> Forall well_formed rows ->
  exists bar,
    fetch_current_price (Some rows) today = Some bar
    /\ low bar <= open bar <= high bar
    /\ low bar <= close bar <= high bar
    /\ adjusted_close bar = close bar
    /\ (forall row, row ∈ rows -> low bar <= Low row /\ High row <= high bar)
    /\ (exists row, row ∈ rows /\ high bar = High row)
    /\ (exists row, row ∈ rows /\ low bar = Low row).
Proof.
  intros Hne Hwf. destruct rows as [|first rest]; [done|]. clear Hne.
  eexists. split; [reflexivity|]. simpl.
  destruct (foldl_Rmax_spec (High first) (High <$> rest)) as [Hub Hmax].
  destruct (foldl_Rmin_spec (Low first) (Low <$> rest)) as [Hlb Hmin].
  change (High first :: (High <$> rest)) with (High <$> first :: rest) in *.
  change (Low first :: (Low <$> rest)) with (Low <$> first :: rest) in *.
  assert (Hrow : forall row, row ∈ first :: rest ->
    foldl Rmin (Low first) (Low <$> rest) <= Low row
    /\ High row <= foldl Rmax (High first) (High <$> rest)).
  { intros row Hrow. split.
    - apply Hlb. by apply list_elem_of_fmap_2.
    - apply Hub. by apply list_elem_of_fmap_2. }
  rewrite Forall_forall in Hwf.
  assert (Hfirst : first ∈ first :: rest) by apply list_elem_of_here.
  pose proof (last_elem_of rest first) as Hlast.
  destruct (Hwf _ Hfirst) as [Ho _], (Hwf _ Hlast) as [_ Hc].
  destruct (Hrow _ Hfirst), (Hrow _ Hlast).
  split; [lra|]. split; [lra|]. split; [done|]. split; [done|].
  split.
  - apply list_elem_of_fmap in Hmax as (row & -> & Hin). eauto.
  - apply list_elem_of_fmap in Hmin as (row & -> & Hin). eauto.
Qed.
End BarProperties.

(** ** The colorizer *)

Section ColorizeProperties.
Import Colorize.
Local Open Scope N_scope.
Variable lower : str -> str.

(** Settles whether a character occurs in a literal. *)
Ltac not_in_literal :=
  let Hin := fresh in
  intros Hin; vm_compute in Hin;
  repeat (apply elem_of_cons in Hin as [Hin|Hin]; [discriminate Hin|]);
  by apply elem_of_nil in Hin.

Lemma replace_char_removes (old : N) (new s : str) :
  old ∉ new -> old ∉ replace_char old new s.
Proof.
  intros Hnew Hin. unfold replace_char in Hin.
  apply list_elem_of_bind in Hin as (c & Hin & _).
  destruct (N.eqb_spec c old) as [Heq|Hne]; [done|].
  apply list_elem_of_singleton in Hin. congruence.
Qed.

Lemma replace_char_keeps_out (c old : N) (new s : str) :
  c ∉ s -> c ∉ new -> c ∉ replace_char old new s.
Proof.
  intros Hs Hnew Hin. unfold replace_char in Hin.
  apply list_elem_of_bind in Hin as (x & Hin & Hx).
  destruct (N.eqb_spec x old) as [Heq|Hne]; [done|].
  apply list_elem_of_singleton in Hin. subst x. done.
Qed.

Lemma escape_removes_markup (s : str) (c : N) :
  c ∈ escape s -> c <> 60 /\ c <> 62 /\ c <> 34 /\ c <> 39.
Proof.
  intros Hin. unfold escape in Hin. cbv zeta in Hin.
  repeat split; intros Hc; subst c; revert Hin.
  - do 2 (apply replace_char_keeps_out; [|not_in_literal]).
    apply replace_char_keeps_out; [|not_in_literal].
    apply replace_char_removes. not_in_literal.
  - apply replace_char_keeps_out; [|not_in_literal].
    apply replace_char_keeps_out; [|not_in_literal].
    apply replace_char_removes. not_in_literal.
  - apply replace_char_keeps_out; [|not_in_literal].
    apply replace_char_removes. not_in_literal.
  - apply replace_char_removes. not_in_literal.
Qed.

Lemma escape_keeps_out_newline (s : str) : 10 ∉ s -> 10 ∉ escape s.
Proof.
  intros Hs. unfold escape.
  repeat (apply replace_char_keeps_out; [|not_in_literal]). done.
Qed.

Lemma lstrip_elem (s : str) (c : N) : c ∈ lstrip s -> c ∈ s.
Proof.
  induction s as [|x s IH]; simpl; [done|].
  destruct (isspace x); [|done].
  intros Hin. by apply list_elem_of_further, IH.
Qed.

Lemma strip_elem (s : str) (c : N) : c ∈ strip s -> c ∈ s.
Proof.
  unfold strip, rstrip. intros Hin.
  apply lstrip_elem. rewrite elem_of_reverse in Hin.
  apply lstrip_elem in Hin. by rewrite elem_of_reverse in Hin.
Qed.

Lemma startswith_head (s prefix : str) (p : N) :
  startswith s (p :: prefix) = true -> p ∈ s.
Proof.
  destruct s as [|c s]; simpl; [discriminate|].
  intros Hs. apply andb_true_iff in Hs as [Hc _].
  apply N.eqb_eq in Hc as ->. apply list_elem_of_here.
Qed.

(** Every line is escaped before it is examined, so the test for a
    leading [>] never holds: a line is marked as a user message exactly
    when, escaped and stripped, it starts with [Human:] or [User:]. *)
Theorem greater_than_prefix_never_matches (line : str) :
  startswith (strip (escape line)) (lit ">") = false
  /\ (classify lower (escape line) = Some user_message <->
        startswith (strip (escape line)) (lit "Human:") = true
        \/ startswith (strip (escape line)) (lit "User:") = true).
Proof.
  assert (Hnever : startswith (strip (escape line)) (lit ">") = false).
  { destruct (startswith (strip (escape line)) (lit ">")) eqn:Hs; [|done].
    apply startswith_head, strip_elem, escape_removes_markup in Hs.
    by destruct Hs as (_ & ? & _). }
  split; [done|]. unfold classify, startswith_any. simpl existsb at 1.
  rewrite Hnever, !orb_false_r.
  destruct (startswith (strip (escape line)) (lit "Human:")); simpl;
    [by split; auto|].
  destruct (startswith (strip (escape line)) (lit "User:")); simpl;
    [by split; auto|].
  split; [|by intros [|]].
  intros Hc. exfalso.
  repeat match type of Hc with
         | (if ?b then _ else _) = _ => destruct b; [discriminate Hc|]
         end.
  discriminate Hc.
Qed.

(** Each output line is the escaped input line, bare or inside one
    [span] whose class is one of the eleven of the style sheet, and the
    escaped text holds no [<], no [>], no double quote and no single
    quote: text of the session cannot open or close a tag, nor end an
    attribute. *)
Theorem colorize_line_is_markup_safe (line : str) :
  (colorize_line lower line = escape line
   \/ exists c, colorize_line lower line = span c (escape line))
  /\ forall c, c ∈ escape line -> c <> 60 /\ c <> 62 /\ c <> 34 /\ c <> 39.
Proof.
  split; [|apply escape_removes_markup].
  unfold colorize_line. destruct (classify lower (escape line)); eauto.
Qed.

Lemma split_lines_nonempty (s : str) : split_lines s <> [].
Proof.
  induction s as [|c s IH]; simpl; [done|].
  destruct (N.eqb c 10); [done|]. by destruct (split_lines s).
Qed.

Lemma split_lines_no_newline (s line : str) :
  line ∈ split_lines s -> 10 ∉ line.
Proof.
  revert line. induction s as [|c s IH]; intros line; simpl.
  - intros Hin. apply list_elem_of_singleton in Hin as ->. apply not_elem_of_nil.
  - destruct (N.eqb_spec c 10) as [->|Hc].
    + intros Hin. apply elem_of_cons in Hin as [->|Hin];
        [apply not_elem_of_nil|by apply IH].
    + destruct (split_lines s) as [|first rest] eqn:Hs.
      * intros Hin. apply list_elem_of_singleton in Hin as ->.
        intros Hin. apply list_elem_of_singleton in Hin. congruence.
      * intros Hin. apply elem_of_cons in Hin as [->|Hin].
        -- intros Hin. apply elem_of_cons in Hin as [?|Hin]; [congruence|].
           revert Hin. apply IH, list_elem_of_here.
        -- by apply IH, list_elem_of_further.
Qed.

Lemma split_lines_app (line rest : str) :
  10 ∉ line ->
  split_lines (line ++ 10 :: rest) = line :: split_lines rest.
Proof.
  induction line as [|c line IH]; intros Hline; simpl; [done|].
  apply not_elem_of_cons in Hline as [Hc Hline].
  destruct (N.eqb_spec c 10); [congruence|].
  by rewrite IH.
Qed.

Lemma split_lines_single (line : str) :
  10 ∉ line -> split_lines line = [line].
Proof.
  induction line as [|c line IH]; intros Hline; simpl; [done|].
  apply not_elem_of_cons in Hline as [Hc Hline].
  destruct (N.eqb_spec c 10); [congruence|].
  by rewrite IH.
Qed.

Lemma split_join_lines (lines : list str) :
  lines <> [] -> Forall (fun line => 10 ∉ line) lines ->
  split_lines (join_lines lines) = lines.
Proof.
  induction lines as [|line lines IH]; intros Hne Hall; [done|].
  apply Forall_cons in Hall as [Hline Hall].
  destruct lines as [|next lines].
  - simpl. by apply split_lines_single.
  - change (join_lines (line :: next :: lines))
      with (line ++ 10 :: join_lines (next :: lines)).
    rewrite split_lines_app by done. f_equal. by apply IH.
Qed.

Lemma colorize_line_no_newline (line : str) :
  10 ∉ line -> 10 ∉ colorize_line lower line.
Proof.
  intros Hline. apply escape_keeps_out_newline in Hline.
  unfold colorize_line.
  destruct (classify lower (escape line)) as [c|]; [|done].
  unfold span. rewrite !not_elem_of_app. repeat split; try done;
    try not_in_literal.
  destruct c; not_in_literal.
Qed.

(** The output has the lines of the input, one for one: cutting what
    stands between header and footer at its newlines gives back exactly
    the processed lines of the input, in order; and the whole output is
    that body between the fixed header and footer. *)
Theorem output_lines_match_input_lines (text : str) :
  split_lines (colorize_body lower text) =
    colorize_line lower <$> split_lines text
  /\ length (split_lines (colorize_body lower text)) =
       length (split_lines text)
  /\ colorize_session lower text =
       html_header ++ colorize_body lower text ++ html_footer.
Proof.
  assert (Hsplit : split_lines (colorize_body lower text) =
                   colorize_line lower <$> split_lines text).
  { unfold colorize_body. apply split_join_lines.
    - pose proof (split_lines_nonempty text).
      by destruct (split_lines text).
    - apply Forall_fmap, Forall_forall. intros line Hin. simpl.
      by apply colorize_line_no_newline, (split_lines_no_newline text). }
  split; [done|]. split; [|done].
  by rewrite Hsplit, length_fmap.
Qed.
End ColorizeProperties.

(** ** File and folder names *)

Section NameProperties.
Import Colorize.
Local Open Scope N_scope.

Lemma before_last_dot_None (s : str) :
  before_last_dot s = None <-> 46 ∉ s.
Proof.
  induction s as [|c s IH]; simpl.
  - split; [intros _; apply not_elem_of_nil|done].
  - rewrite not_elem_of_cons.
    destruct (before_last_dot s) as [h|].
    + split; [done|]. intros [_ Hs]. by apply IH in Hs.
    + destruct (N.eqb_spec c 46) as [Heq|Hne].
      * split; [done|]. intros [Hc _]. congruence.
      * split; [|done]. intros _. split; [congruence|]. by apply IH.
Qed.

Lemma before_last_dot_app (head extension : str) :
  46 ∉ extension -> before_last_dot (head ++ 46 :: extension) = Some head.
Proof.
  intros Hext. induction head as [|c head IH]; simpl.
  - apply before_last_dot_None in Hext. by rewrite Hext.
  - by rewrite IH.
Qed.

Lemma before_last_dot_Some (s head : str) :
  before_last_dot s = Some head ->
  exists extension, s = head ++ 46 :: extension /\ 46 ∉ extension.
Proof.
  revert head. induction s as [|c s IH]; intros head; simpl; [done|].
  destruct (before_last_dot s) as [h|] eqn:Hs.
  - intros [= <-]. destruct (IH h eq_refl) as (ext & -> & Hext).
    by exists ext.
  - destruct (N.eqb_spec c 46) as [Heq|Hne]; [|done].
    intros [= <-]. exists s. split; [by rewrite Heq|].
    by apply before_last_dot_None.
Qed.

(** Without a second argument the output file is the input name up to
    its last dot, or the whole name when it has no dot, followed by
    [_colored.html]; it is never the input file itself, so the input is
    not overwritten. *)
Theorem default_output_file_differs (input_file : str) :
  output_file input_file None <> input_file
  /\ (forall head extension,
        input_file = head ++ 46 :: extension -> 46 ∉ extension ->
        output_file input_file None = head ++ lit "_colored.html")
  /\ (46 ∉ input_file ->
      output_file input_file None = input_file ++ lit "_colored.html").
Proof.
  unfold output_file, rsplit_dot_head. split; [|split].
  - destruct (before_last_dot input_file) as [head|] eqn:Hhead.
    + apply before_last_dot_Some in Hhead as (ext & Hinput & Hext).
      rewrite Hinput. intros Heq. apply app_inv_head in Heq.
      vm_compute in Heq. discriminate.
    + intros Heq. apply (f_equal length) in Heq.
      rewrite length_app in Heq.
      change (length (lit "_colored.html")) with 13%nat in Heq. lia.
  - intros head ext Hinput Hext.
    by rewrite Hinput, before_last_dot_app.
  - intros Hdot. apply before_last_dot_None in Hdot. by rewrite Hdot.
Qed.

(** The archive folder is named by the timestamp, an underscore and a
    slug of the description that holds no space and has at most fifty
    characters. *)
Theorem folder_name_slug (lower : str -> str) (timestamp description : str) :
  exists slug,
    PortfolioTest.folder_name lower timestamp description =
      timestamp ++ lit "_" ++ slug
    /\ (32 ∉ slug)
    /\ (length slug <= 50)%nat
    /\ length slug = Nat.min 50 (length (lower description)).
Proof.
  eexists. split; [reflexivity|]. split; [|split].
  - intros Hin. apply elem_of_take in Hin as (i & Hin & _).
    apply list_elem_of_lookup_2 in Hin. revert Hin.
    apply replace_char_removes.
    intros Hin. vm_compute in Hin.
    apply list_elem_of_singleton in Hin. discriminate.
  - rewrite length_take. lia.
  - rewrite length_take. f_equal. unfold replace_char.
    induction (lower description) as [|c s IH]; csimpl; [done|].
    rewrite length_app, IH. by destruct (N.eqb c 32).
Qed.
End NameProperties.

(** ** The further theorems at concrete inputs *)

(** On binary64 numbers the delta at index [1] is the difference of the
    two stored numbers, which need not be [firstDelta]: from
    [start = 1.0] and [firstDelta = 0.1] it is [0.10000000000000009]. *)
Example first_step_on_binary64 :
  generate_sequence 3 1.0%float (Some 0.1%float) 2.0%float (Some 1) =
    Ok (Element 1.1%float 0.10000000000000009%float)
  /\ PrimFloat.eqb 0.10000000000000009%float 0.1%float = false.
Proof. vm_compute. split; reflexivity. Qed.

Lemma interior_entries_untouched_at_defaults :
  3 <= 10
  /\ exists sequence,
       generate_sequence 10 0.0%float (Some 0.05%float) 0.7%float None =
         Ok (Sequence sequence)
       /\ Z.of_nat (length sequence) = 10
       /\ forall i, 0 < i < 10 - 1 -> (Some 0.05%float = None \/ i <> 1) ->
            getitem sequence i =
              Ok (curve 10 0.0%float (Some 0.05%float) 0.7%float i).
Proof.
  split; [lia|].
  exact (interior_entries_untouched 10 0.0%float (Some 0.05%float) 0.7%float
           ltac:(lia)).
Defined.

Lemma query_at_the_ends_at_defaults :
  3 <= 10
  /\ generate_sequence 10 0.0%float (Some 0.05%float) 0.7%float (Some 0) =
       Ok (Element 0.0%float (of_int 0))
  /\ exists delta,
       generate_sequence 10 0.0%float (Some 0.05%float) 0.7%float
         (Some (10 - 1)) = Ok (Element 0.7%float delta).
Proof.
  split; [lia|].
  exact (query_at_the_ends 10 0.0%float (Some 0.05%float) 0.7%float
           ltac:(lia)).
Defined.

Lemma query_at_the_first_step_at_defaults :
  3 <= 10
  /\ generate_sequence 10 0.0%float (Some 0.05%float) 0.7%float (Some 1) =
       Ok (Element (add 0.0%float 0.05%float)
                   (sub (add 0.0%float 0.05%float) 0.0%float)).
Proof.
  split; [lia|].
  exact (query_at_the_first_step 10 0.0%float 0.05%float 0.7%float
           ltac:(lia)).
Defined.

(** The grid of the example in the parameter schema. *)
Lemma parameter_combinations_order_in_example :
  Backtest.grid_spacing Backtest.example_grid !! 1%nat = Some 0.10%float
  /\ Backtest.profit_target Backtest.example_grid !! 2%nat = Some 0.07%float
  /\ Backtest.momentum_values Backtest.example_grid !! 1%nat = Some true
  /\ Backtest.parameter_combinations Backtest.example_grid
       !! ((1 * length (Backtest.profit_target Backtest.example_grid) + 2)
           * length (Backtest.momentum_values Backtest.example_grid) + 1)%nat
     = Some {| Backtest.gridSpacing := 0.10%float;
               Backtest.profitTarget := 0.07%float;
               Backtest.enableMomentumSell := true |}.
Proof.
  do 3 (split; [reflexivity|]).
  exact (parameter_combinations_order Backtest.example_grid 1 2 1 _ _ _
           eq_refl eq_refl eq_refl).
Defined.


(** Ten stocks of [10.01] add up to [100.10000000000001] on binary64
    numbers and are refused; so is the empty portfolio. *)
Example ten_stocks_refused :
  Backtest.portfolio_request
    (replicate 10 {| Backtest.symbol := "AAPL";
                     Backtest.allocation_pct := 10.01 |}) =
    inl 100.10000000000001%float
  /\ Backtest.portfolio_request [] = inl 0%float.
Proof. vm_compute. split; reflexivity. Qed.

Lemma unreadable_body_gives_text_at_bad_gateway :
  400 <= Errors.response_status_code Errors.bad_gateway
  /\ exists text,
       Errors.handle_backend_error Errors.bad_gateway =
         inl {| Errors.status_code := 502;
                Errors.message := Errors.JStr text;
                Errors.details := Errors.JDict ∅ |}
       /\ text <> ""
       /\ (Errors.response_text Errors.bad_gateway <> "" ->
           text = Errors.response_text Errors.bad_gateway)
       /\ (Errors.response_text Errors.bad_gateway = "" ->
           text = "Request failed").
Proof.
  split; [simpl; lia|].
  exact (unreadable_body_gives_text Errors.bad_gateway ltac:(simpl; lia) I).
Defined.

Lemma object_body_gives_error_field_at_not_found :
  400 <= Errors.response_status_code Errors.not_found
  /\ Errors.response_json Errors.not_found =
       Some (Errors.JDict Errors.not_found_body)
  /\ exists e,
       Errors.handle_backend_error Errors.not_found = inl e
       /\ Errors.message e =
            default (Errors.JStr "Unknown error")
                    (Errors.not_found_body !! "error").
Proof.
  split; [simpl; lia|]. split; [reflexivity|].
  destruct (object_body_gives_error_field Errors.not_found
              Errors.not_found_body ltac:(simpl; lia) eq_refl)
    as (e & Hraise & Hmessage & _).
  exists e. by split.
Defined.

Lemma synthetic_bar_well_formed_at_two_minutes :
  FetchCurrentPrice.two_minutes <> []
  /\ Forall FetchCurrentPrice.well_formed FetchCurrentPrice.two_minutes
  /\ exists bar,
       FetchCurrentPrice.fetch_current_price
         (Some FetchCurrentPrice.two_minutes) "2025-10-17" = Some bar
       /\ (FetchCurrentPrice.low bar <= FetchCurrentPrice.open bar
           <= FetchCurrentPrice.high bar)%R.
Proof.
  assert (Hne : FetchCurrentPrice.two_minutes <> []) by done.
  assert (Hwf : Forall FetchCurrentPrice.well_formed
                  FetchCurrentPrice.two_minutes).
  { repeat constructor; simpl; lra. }
  split; [exact Hne|]. split; [exact Hwf|].
  destruct (synthetic_bar_well_formed FetchCurrentPrice.two_minutes
              "2025-10-17" Hne Hwf) as (bar & Hbar & Hopen & _).
  exists bar. by split.
Defined.
